(** * Virtual Metrology assistant: the agent orchestrator and its index

    A shallow embedding of [Virtual_Metrology/agents/agent_orchestrator.py]
    (the retrieval-chain constructor, the agent closure and the data-analysis
    helper), followed by models of the vector-index search and of the
    ingestion pipeline, whose code is not part of the two source files and
    is therefore written down from the specification.

    The third-party objects the orchestrator talks to (the embedding model,
    the FAISS store, the OpenAI client, the prompt template) are
    collaborators: each call to one of them either returns a handle or
    raises.  They are the fields of a [World], so every theorem holds for
    whatever those libraries do. *)

From Stdlib Require Import ZArith Lia.
From stdpp Require Import base gmap strings list sorting pretty.

Local Open Scope Z_scope.


(** ** Python values and exceptions *)

Module Py.

(** A numeric literal or value: an [int], or a [float] written as the
    decimal [mantissa * 10 ^ exponent] (so [0.005] is [PyFloat 5 (-3)] and
    [0.3] is [PyFloat 3 (-1)]).  The orchestrator only passes numbers on,
    it never computes with them. *)
Inductive number :=
| PyInt (z : Z)
| PyFloat (mantissa exponent : Z).

(** An instance of (a subclass of) [Exception]: its class name and what
    [str(e)] gives. *)
Record exception := Exception { exc_class : string; exc_str : string }.

(** What a [raise] can carry.  [BaseException] has subclasses that are not
    [Exception]s ([KeyboardInterrupt], [SystemExit], [GeneratorExit]); a
    handler [except Exception] lets those through. *)
Inductive raised :=
| Exc (e : exception)
| BaseExc (cls : string).

(** The outcome of calling a collaborator. *)
Inductive outcome (A : Type) :=
| Returns (a : A)
| Raises (r : raised).
Arguments Returns {A} a.
Arguments Raises {A} r.

(** Why a function of this module did not return: an exception raised by
    one of its own statements, or one that came out of a collaborator call
    and was not handled. *)
Inductive failure :=
| Own (e : exception)
| Propagated (r : raised).

Inductive result (A : Type) :=
| Ok (a : A)
| Fail (f : failure).
Arguments Ok {A} a.
Arguments Fail {A} f.

Definition is_ok {A} (r : result A) : bool :=
  match r with Ok _ => true | Fail _ => false end.

(** The class of the exception the caller sees. *)
Definition raised_class (r : raised) : string :=
  match r with Exc e => exc_class e | BaseExc c => c end.

Definition failure_class (f : failure) : string :=
  match f with Own e => exc_class e | Propagated r => raised_class r end.

(** The two exceptions the orchestrator's own code can raise. *)
Definition FileNotFoundError (msg : string) : exception :=
  Exception "FileNotFoundError" msg.

Definition NameError (name : string) : exception :=
  Exception "NameError" ("name '" +:+ name +:+ "' is not defined").

End Py.
Export Py.

(** ** Calls to collaborators, recorded *)

(** One entry per collaborator call the orchestrator makes, with the
    arguments the source passes. *)
Inductive event :=
| EvHuggingFaceEmbeddings (model_name : string)
| EvFAISS_load_local (folder_path : string) (allow_dangerous_deserialization : bool)
| EvOpenAI (temperature : number)
| EvAsRetriever (search_kwargs : gmap string Z)
| EvRetrievalQA_from_chain_type (chain_type : string) (return_source_documents : bool)
| EvConversationBufferMemory (memory_key : string) (return_messages : bool)
| EvPromptTemplate (template : string) (input_variables : list string).

Definition trace := list event.

(** A computation threads the trace of calls made so far and either returns
    or fails; a failure keeps the calls that were made before it. *)
Definition M (A : Type) : Type := trace → result A * trace.

Definition ret {A} (a : A) : M A := λ t, (Ok a, t).

Definition bind {A B} (m : M A) (k : A → M B) : M B :=
  λ t, match m t with
       | (Ok a, t') => k a t'
       | (Fail f, t') => (Fail f, t')
       end.

Definition raise {A} (e : exception) : M A := λ t, (Fail (Own e), t).

(** Call a collaborator: the call is recorded, then its outcome decides. *)
Definition call {A} (ev : event) (o : outcome A) : M A :=
  λ t, match o with
       | Returns a => (Ok a, t ++ [ev])
       | Raises r => (Fail (Propagated r), t ++ [ev])
       end.

Declare Scope py_scope.
Delimit Scope py_scope with py.
Notation "x <- m ;; k" := (bind m (λ x, k))
  (at level 100, m at next level, right associativity) : py_scope.
Notation "m ;;; k" := (bind m (λ _, k))
  (at level 100, right associativity) : py_scope.

(** Run a computation from the empty trace. *)
Definition run {A} (m : M A) : result A * trace := m [].

(** ** The module's namespace *)

(** Names bound by the import statements on lines 2-9 of
    [agent_orchestrator.py]. *)
Definition imported_names : list string :=
  [ "HuggingFaceEmbeddings"; "FAISS"; "ConversationBufferMemory"; "OpenAI";
    "PromptTemplate"; "compute_stats"; "simple_rule_check"; "os" ].

(** Names bound by the module's three [def] statements. *)
Definition defined_names : list string :=
  [ "get_retrieval_chain"; "get_agent"; "analyze_vm_data" ].

(** The built-ins the module refers to. *)
Definition builtin_names : list string :=
  [ "FileNotFoundError"; "Exception" ].

Definition module_namespace : list string :=
  imported_names ++ defined_names ++ builtin_names.

(** Looking a global name up when the statement using it runs: a name that
    is bound nowhere raises [NameError]. *)
Definition global (name : string) : M unit :=
  if bool_decide (name ∈ module_namespace) then ret tt
  else raise (NameError name).

(** ** Collaborators *)

(** Everything the orchestrator reaches outside its own file: the file
    system test, the third-party constructors and methods, and the two
    helpers of [agents.tools].  Handles are opaque types. *)
Record World := {
  Embeddings : Type;
  VectorStore : Type;
  LLM : Type;
  Retriever : Type;
  Chain : Type;
  Memory : Type;
  Prompt : Type;
  Stats : Type;
  RuleFlag : Type;
  (* os.path.exists(path) *)
  os_path_exists : string → bool;
  (* HuggingFaceEmbeddings(model_name=...) *)
  HuggingFaceEmbeddings : string → outcome Embeddings;
  (* FAISS.load_local(path, embeddings, allow_dangerous_deserialization=...) *)
  FAISS_load_local : string → Embeddings → bool → outcome VectorStore;
  (* OpenAI(temperature=...) *)
  OpenAI : number → outcome LLM;
  (* vectorstore.as_retriever(search_kwargs=...) *)
  as_retriever : VectorStore → gmap string Z → outcome Retriever;
  (* RetrievalQA.from_chain_type(llm=, chain_type=, retriever=, return_source_documents=) *)
  RetrievalQA_from_chain_type : LLM → string → Retriever → bool → outcome Chain;
  (* ConversationBufferMemory(memory_key=, return_messages=) *)
  ConversationBufferMemory : string → bool → outcome Memory;
  (* PromptTemplate(template=, input_variables=) *)
  PromptTemplate : string → list string → outcome Prompt;
  (* prompt.format with keyword arguments *)
  prompt_format : Prompt → gmap string string → outcome string;
  (* llm(text) *)
  llm_call : LLM → string → outcome string;
  (* agents.tools.compute_stats(values) *)
  compute_stats : list number → outcome Stats;
  (* agents.tools.simple_rule_check(value, threshold) *)
  simple_rule_check : number → number → outcome RuleFlag;
}.

(** ** [get_retrieval_chain] *)

Definition default_vectorstore_path : string := "vectorstore/faiss_index".

Definition embedding_model_name : string := "sentence-transformers/all-MiniLM-L6-v2".

(** [search_kwargs={"k": 3}] *)
Definition search_kwargs : gmap string Z := {[ "k" := 3 ]}.

Definition not_found_message (vectorstore_path : string) : string :=
  "Vectorstore not found at " +:+ vectorstore_path.

(** Lines 12-32.  Every global name is looked up when its statement runs,
    before the arguments of the call it heads are evaluated.  (The return
    annotation on line 12 names [RetrievalQA] too; annotations are taken as
    evaluated lazily, so the [def] itself goes through.) *)
Definition get_retrieval_chain (W : World) (vectorstore_path : string) : M (Chain W) :=
  (global "os" ;;;
   if negb (os_path_exists W vectorstore_path) then
     global "FileNotFoundError" ;;;
     raise (FileNotFoundError (not_found_message vectorstore_path))
   else
     global "HuggingFaceEmbeddings" ;;;
     embeddings <- call (EvHuggingFaceEmbeddings embedding_model_name)
                        (HuggingFaceEmbeddings W embedding_model_name) ;;
     global "FAISS" ;;;
     vectorstore <- call (EvFAISS_load_local vectorstore_path true)
                         (FAISS_load_local W vectorstore_path embeddings true) ;;
     global "OpenAI" ;;;
     llm <- call (EvOpenAI (PyInt 0)) (OpenAI W (PyInt 0)) ;;
     retriever <- call (EvAsRetriever search_kwargs)
                       (as_retriever W vectorstore search_kwargs) ;;
     global "RetrievalQA" ;;;
     qa_chain <- call (EvRetrievalQA_from_chain_type "stuff" true)
                      (RetrievalQA_from_chain_type W llm "stuff" retriever true) ;;
     ret qa_chain)%py.

(** ** [get_agent] and the [agent_response] closure *)

(** The template literal of lines 41-46, line breaks and indentation kept. *)
Definition template : string :=
"
    You are a Virtual Metrology AI Assistant.
    You analyze semiconductor process logs and generate insights.

    User Question: {question}
    ".

Definition error_marker : string := "Error while generating response: ".

Definition outcome_bind {A B} (o : outcome A) (k : A → outcome B) : outcome B :=
  match o with
  | Returns a => k a
  | Raises r => Raises r
  end.

(** Lines 51-60.  The [try] body formats the prompt and calls the model;
    [except Exception as e] turns an [Exception] into the marker followed by
    [str(e)], and lets anything that is not an [Exception] through. *)
Definition agent_response (W : World) (prompt : Prompt W) (llm : LLM W)
    (question : string) : result string :=
  let chain_input : gmap string string := {[ "question" := question ]} in
  match outcome_bind (prompt_format W prompt chain_input) (llm_call W llm) with
  | Returns answer => Ok answer
  | Raises (Exc e) => Ok (error_marker +:+ exc_str e)
  | Raises (BaseExc cls) => Fail (Propagated (BaseExc cls))
  end.

(** Lines 35-62: build the memory, the prompt and the model, return the
    closure over the last two. *)
Definition get_agent (W : World) : M (string → result string) :=
  (global "ConversationBufferMemory" ;;;
   memory <- call (EvConversationBufferMemory "chat_history" true)
                  (ConversationBufferMemory W "chat_history" true) ;;
   global "PromptTemplate" ;;;
   prompt <- call (EvPromptTemplate template ["question"])
                  (PromptTemplate W template ["question"]) ;;
   global "OpenAI" ;;;
   llm <- call (EvOpenAI (PyFloat 3 (-1))) (OpenAI W (PyFloat 3 (-1))) ;;
   ret (agent_response W prompt llm))%py.

(** ** [analyze_vm_data] *)

(** The threshold literal [0.005]. *)
Definition rule_threshold : number := PyFloat 5 (-3).

(** A list comprehension [[f(x) for x in l]]: elements are visited left to
    right and the first call that raises ends it. *)
Fixpoint comprehension {A B} (f : A → outcome B) (l : list A) : outcome (list B) :=
  match l with
  | [] => Returns []
  | x :: l' =>
      outcome_bind (f x) (λ y,
      outcome_bind (comprehension f l') (λ ys, Returns (y :: ys)))
  end.

(** The values stored in the returned dict. *)
Inductive value (W : World) :=
| VStats (s : Stats W)
| VRules (l : list (RuleFlag W)).
Arguments VStats {W} s.
Arguments VRules {W} l.

(** Lines 65-71. *)
Definition analyze_vm_data (W : World) (data_list : list number)
    : result (gmap string (value W)) :=
  match compute_stats W data_list with
  | Raises r => Fail (Propagated r)
  | Returns stats =>
      match comprehension (λ val, simple_rule_check W val rule_threshold) data_list with
      | Raises r => Fail (Propagated r)
      | Returns rules => Ok (<["stats" := VStats stats]> (<["rules" := VRules rules]> ∅))
      end
  end.

(** ** Stand-in collaborators

    Concrete worlds on which the theorems below are instantiated. *)

Record stub_embeddings := { se_model_name : string; se_dimension : nat }.

Record stub_vectorstore := {
  vs_built_with : string;
  vs_dimension : nat;
  vs_embeddings : stub_embeddings;
}.

(** A rule check for the stand-in world: the integer part of the value is
    above the integer part of the threshold. *)
Definition stub_rule_check (val threshold : number) : bool :=
  let whole n := match n with
                 | PyInt z => z
                 | PyFloat m e => if 0 <=? e then m * 10 ^ e else m / 10 ^ (- e)
                 end in
  whole threshold <? whole val.

(** A world in which the only persisted index is at the default path; it was
    built with [index_model], of dimension [index_dimension]; the query-time
    embedding model has dimension 384; the language model behaves as
    [llm]. Loading does not compare the two models. *)
Definition stub_world (index_model : string) (index_dimension : nat)
    (llm : string → outcome string) : World := {|
  Embeddings := stub_embeddings;
  VectorStore := stub_vectorstore;
  LLM := unit;
  Retriever := stub_vectorstore * gmap string Z;
  Chain := unit;
  Memory := unit;
  Prompt := string;
  Stats := nat;
  RuleFlag := bool;
  os_path_exists := λ p, bool_decide (p = default_vectorstore_path);
  HuggingFaceEmbeddings := λ m, Returns {| se_model_name := m; se_dimension := 384 |};
  FAISS_load_local := λ _ emb _,
    Returns {| vs_built_with := index_model; vs_dimension := index_dimension;
               vs_embeddings := emb |};
  OpenAI := λ _, Returns tt;
  as_retriever := λ vs kw, Returns (vs, kw);
  RetrievalQA_from_chain_type := λ _ _ _ _, Returns tt;
  ConversationBufferMemory := λ _ _, Returns tt;
  PromptTemplate := λ t _, Returns t;
  prompt_format := λ t kw,
    match kw !! "question" with
    | Some q => Returns (t +:+ q)
    | None => Raises (Exc (Exception "KeyError" "'question'"))
    end;
  llm_call := λ _ text, llm text;
  compute_stats := λ l, Returns (length l);
  simple_rule_check := λ val threshold, Returns (stub_rule_check val threshold);
|}.

(** The provider is down: every call raises. *)
Definition failing_llm (text : string) : outcome string :=
  Raises (Exc (Exception "APIConnectionError" "Connection error.")).

Definition echo_llm (text : string) : outcome string := Returns text.

Definition provider_down_world : World :=
  stub_world embedding_model_name 384 failing_llm.

Definition healthy_world : World :=
  stub_world embedding_model_name 384 echo_llm.

(** The index on disk was built with another model, of dimension 768. *)
Definition mismatch_world : World :=
  stub_world "sentence-transformers/all-mpnet-base-v2" 768 echo_llm.


(** * The document store and the ingestion pipeline

    [agent_orchestrator.py] loads an index that something else wrote and
    hands the search to the FAISS library; [app_streamlit.py] calls
    [data_ingest.ingest.ingest_folder], whose file is not among the
    sources.  The definitions of the two modules below are therefore
    written from the specification's sections 3, 4.1, 4.2 and 6. *)

Module DocumentStore.

(** A chunk of a document (section 3): its text, its position in the
    document, the document it comes from and a metadata mapping with at
    least the keys [source] and [filename]. *)
Record Chunk := {
  text : string;
  chunk_index : nat;
  parent_document_id : string;
  metadata : gmap string string;
}.

(** An embedding vector.  Scores are only ever compared, so a similarity is
    an integer (a fixed-point reading of the provider's cosine or inner
    product). *)
Definition Vector := list Z.

Definition Score := Z.

(** One entry of the index: a chunk and its embedding.  An index handle
    lists its entries in ingestion order. *)
Definition Entry : Type := Chunk * Vector.

Definition IndexHandle := list Entry.

Inductive store_error :=
| IndexNotFoundError
| IndexCorruptError
| InvalidK.

(** Insert [x], which was ingested before everything in [ranked], into a
    list ranked by descending key: it goes in front of the first element
    whose key does not exceed its own, so behind those with a strictly
    larger key and ahead of those with an equal one. *)
Fixpoint insert_ranked {A} (key : A → Score) (x : A) (ranked : list A) : list A :=
  match ranked with
  | [] => [x]
  | y :: rest =>
      if key x <? key y then y :: insert_ranked key x rest
      else x :: y :: rest
  end.

(** Modelled from the spec: the ranking behind [search] (section 4.2,
    "ordered by descending similarity; ties broken by original ingestion
    order (stable)"), as a stable insertion sort.  The list is taken in
    ingestion order; each element is inserted into the ranking of those
    that follow it. *)
Definition rank_descending {A} (key : A → Score) (l : list A) : list A :=
  foldr (insert_ranked key) [] l.

(** Every entry with its similarity to the query vector. *)
Definition scored (similarity : Vector → Vector → Score) (index : IndexHandle)
    (query_vector : Vector) : list (Chunk * Score) :=
  map (λ entry : Entry, (entry.1, similarity query_vector entry.2)) index.

(** Modelled from the spec: [search(query_vector, k)] of section 4.2, which
    the sources leave to the FAISS library: "returns at most k entries,
    ordered by descending similarity; ties broken by original ingestion
    order (stable). k must be >= 1; k greater than the index size returns
    all entries." *)
Definition search (similarity : Vector → Vector → Score) (index : IndexHandle)
    (query_vector : Vector) (k : Z) : store_error + list (Chunk * Score) :=
  if k <? 1 then inl InvalidK
  else inr (take (Z.to_nat k) (rank_descending snd (scored similarity index query_vector))).

(** The order of a ranking of ingestion positions: a strictly larger score
    first, and among equal scores the earlier position first. *)
Definition ranks_before (key : nat → Score) (p q : nat) : Prop :=
  key q < key p ∨ (key q = key p ∧ (p < q)%nat).

(** Inner product, one of the two similarities the spec names. *)
Fixpoint inner_product (u v : Vector) : Score :=
  match u, v with
  | a :: u', b :: v' => a * b + inner_product u' v'
  | _, _ => 0
  end.

(** Three entries, the first and the last equally similar to the query:
    with [k = 2] the best entry comes first and the tie goes to the entry
    ingested first. *)
Definition sample_chunk (name : string) (i : nat) : Chunk :=
  {| text := name; chunk_index := i; parent_document_id := "lot1.log";
     metadata := {[ "source" := "lot1.log" ]} |}.

Definition sample_index : IndexHandle :=
  [ (sample_chunk "a" 0, [1; 0]); (sample_chunk "b" 1, [2; 0]);
    (sample_chunk "c" 2, [1; 5]) ].

End DocumentStore.

Module Ingestion.
Import DocumentStore.

(** A folder on disk: the files of a directory, in listing order, each with
    its name and full text; [None] when the path does not exist. *)
Definition FileSystem := string → option (list (string * string)).

(** A raw input unit (section 3). *)
Record Document := {
  id : string;
  raw_text : string;
  source_path : string;
}.

(** One record of the Docs Metadata Manifest (section 6). *)
Record ManifestRecord := {
  chunk_id : string * nat;
  source : string;
  filename : string;
  manifest_chunk_index : nat;
}.

(** The splitting policy is configuration: a maximum chunk length and an
    overlap between consecutive chunks. *)
Record SplitPolicy := {
  max_chunk_length : nat;
  chunk_overlap : nat;
}.

(** How far the window moves from one chunk to the next; at least one
    character, so that splitting ends. *)
Definition stride (policy : SplitPolicy) : nat :=
  Nat.max 1 (max_chunk_length policy - chunk_overlap policy).

Fixpoint split_chars (fuel : nat) (policy : SplitPolicy) (chars : list Ascii.ascii)
    : list (list Ascii.ascii) :=
  match fuel with
  | O => []
  | S fuel' =>
      match chars with
      | [] => []
      | _ :: _ =>
          take (max_chunk_length policy) chars ::
          (if (length chars <=? max_chunk_length policy)%nat then []
           else split_chars fuel' policy (drop (stride policy) chars))
      end
  end.

(** Modelled from the spec: the deterministic, length-bounded splitting
    policy of section 4.1 ("fixed maximum chunk length with optional
    overlap"); the sources contain no splitter. *)
Definition split_text (policy : SplitPolicy) (s : string) : list string :=
  String.string_of_list_ascii
    <$> split_chars (String.length s) policy (String.list_ascii_of_string s).

(** Text-like extensions. *)
Definition eligible_extensions : list string := [ ".txt"; ".log"; ".md" ].

Definition eligible (name : string) : bool :=
  existsb (λ ext, bool_decide (String.list_ascii_of_string ext
                               `suffix_of` String.list_ascii_of_string name))
          eligible_extensions.

Definition document_of (folder_path : string) (file : string * string) : Document :=
  {| id := file.1; raw_text := file.2;
     source_path := folder_path +:+ "/" +:+ file.1 |}.

Definition chunks_of (policy : SplitPolicy) (doc : Document) : list Chunk :=
  imap (λ i piece,
          {| text := piece; chunk_index := i; parent_document_id := id doc;
             metadata := {[ "source" := id doc; "filename" := id doc ]} |})
       (split_text policy (raw_text doc)).

Definition manifest_record (c : Chunk) : ManifestRecord :=
  {| chunk_id := (parent_document_id c, chunk_index c);
     source := parent_document_id c;
     filename := parent_document_id c;
     manifest_chunk_index := chunk_index c |}.

(** One index generation: the vector index and, positionally aligned with
    it, the manifest. *)
Record Generation := {
  gen_index : list Entry;
  gen_manifest : list ManifestRecord;
}.

Definition generation_of (entries : list Entry) : Generation :=
  {| gen_index := entries; gen_manifest := manifest_record ∘ fst <$> entries |}.

(** What is on disk: the generation readers load, and the generation being
    written. *)
Record Store := {
  current : option Generation;
  staging : list Entry;
}.

(** Modelled from the spec: [load(path)] of section 4.2, as a reader sees
    the store. *)
Definition load (s : Store) : store_error + IndexHandle :=
  match current s with
  | None => inl IndexNotFoundError
  | Some g =>
      if (length (gen_manifest g) =? length (gen_index g))%nat then inr (gen_index g)
      else inl IndexCorruptError
  end.

Record IndexBuildReport := {
  files_processed : nat;
  chunks_created : nat;
  failures : list (string * string);
}.

Definition empty_report : IndexBuildReport :=
  {| files_processed := 0; chunks_created := 0; failures := [] |}.

Inductive ingest_error := NotFoundError.

Definition reason_of (r : raised) : string :=
  match r with
  | Exc e => exc_class e +:+ ": " +:+ exc_str e
  | BaseExc cls => cls
  end.

Section Run.

(** The embedding provider has a state of its own (a connection, a cache, a
    counter); a call returns a vector or raises, and moves that state. *)
Context {P : Type}.
Variable policy : SplitPolicy.
Variable embed : P → string → outcome Vector * P.

(** A run of the pipeline: the disk, the provider, and every state the disk
    went through, oldest first, which is what a concurrent reader may have
    seen. *)
Record Run := {
  disk : Store;
  provider : P;
  observed : list Store;
}.

(** Every change of the disk is one atomic write and is recorded. *)
Definition write (f : Store → Store) (r : Run) : Run :=
  let d := f (disk r) in
  {| disk := d; provider := provider r; observed := observed r ++ [d] |}.

Definition with_provider (p : P) (r : Run) : Run :=
  {| disk := disk r; provider := p; observed := observed r |}.

Definition stage (entry : Entry) (d : Store) : Store :=
  {| current := current d; staging := staging d ++ [entry] |}.

Definition reset_staging (entries : list Entry) (d : Store) : Store :=
  {| current := current d; staging := entries |}.

(** The atomic swap: the staged generation becomes the current one. *)
Definition commit (d : Store) : Store :=
  {| current := Some (generation_of (staging d)); staging := [] |}.

(** Embed the chunks of one file in order, staging each embedded chunk; the
    first failure stops the file and gives its reason. *)
Fixpoint embed_chunks (chunks : list Chunk) (r : Run) : option string * Run :=
  match chunks with
  | [] => (None, r)
  | c :: rest =>
      match embed (provider r) (text c) with
      | (Returns v, p) => embed_chunks rest (write (stage (c, v)) (with_provider p r))
      | (Raises e, p) => (Some (reason_of e), with_provider p r)
      end
  end.

(** One file: on success it counts in the report; on failure the failure is
    recorded with the file's name and what was staged for the file is taken
    back. *)
Definition ingest_file (folder_path : string) (acc : IndexBuildReport * Run)
    (file : string * string) : IndexBuildReport * Run :=
  let chunks := chunks_of policy (document_of folder_path file) in
  let kept := staging (disk acc.2) in
  match embed_chunks chunks acc.2 with
  | (None, r) =>
      ({| files_processed := S (files_processed acc.1);
          chunks_created := chunks_created acc.1 + length chunks;
          failures := failures acc.1 |}, r)
  | (Some reason, r) =>
      ({| files_processed := files_processed acc.1;
          chunks_created := chunks_created acc.1;
          failures := failures acc.1 ++ [(file.1, reason)] |},
       write (reset_staging kept) r)
  end.

(** Modelled from the spec: [ingest(folder_path)] of section 4.1, whose
    implementation ([data_ingest.ingest.ingest_folder]) is not among the
    sources.  A missing folder is [NotFoundError]; otherwise a new
    generation is staged from the eligible files and committed only when no
    file failed. *)
Definition ingest (fs : FileSystem) (folder_path : string) (r : Run)
    : (ingest_error + IndexBuildReport) * Run :=
  match fs folder_path with
  | None => (inl NotFoundError, r)
  | Some files =>
      let started := write (reset_staging []) r in
      let done := foldl (ingest_file folder_path) (empty_report, started)
                        (filter (λ file, eligible file.1 = true) files) in
      match failures done.1 with
      | [] => (inr done.1, write commit done.2)
      | _ :: _ => (inr done.1, write (reset_staging []) done.2)
      end
  end.

(** A provider is deterministic when what it returns for a text does not
    depend on its state. *)
Definition deterministic : Prop :=
  ∀ (p p' : P) (t : string), (embed p t).1 = (embed p' t).1.

End Run.

Arguments Run P : clear implicits.

(** ** Watching the provider *)

(** The calls made to the provider, oldest first: the text and what came
    back. *)
Definition call_log : Type := list (string * outcome Vector).

(** The same provider, keeping in its state a record of every call. *)
Definition logging {P} (embed : P → string → outcome Vector * P)
    (state : P * call_log) (t : string) : outcome Vector * (P * call_log) :=
  let '(o, p) := embed state.1 t in
  (o, (p, state.2 ++ [(t, o)])).

(** Whether some recorded call raised. *)
Definition any_raised (log : call_log) : bool :=
  existsb (λ c, match c.2 with Raises _ => true | Returns _ => false end) log.

(** ** A sample folder and three providers *)

Definition sample_policy : SplitPolicy :=
  {| max_chunk_length := 24; chunk_overlap := 4 |}.

Definition sample_folder : string := "data/sample_logs".

Definition sample_fs : FileSystem :=
  λ path,
    if bool_decide (path = sample_folder) then
      Some [ ("lot1.log", "CD drift observed on lot L1234 at step 12");
             ("notes.md", "etch rate nominal");
             ("photo.png", "not text") ]
    else None.

(** The generation on disk before the sample runs. *)
Definition previous_generation : Generation :=
  generation_of
    [ ({| text := "older log"; chunk_index := 0; parent_document_id := "lot0.log";
          metadata := {[ "source" := "lot0.log"; "filename" := "lot0.log" ]} |},
       [9]) ].

Definition sample_start : Run nat :=
  {| disk := {| current := Some previous_generation; staging := [] |};
     provider := 0%nat; observed := [] |}.

(** A deterministic provider: the vector is the length of the text; the
    state counts the calls. *)
Definition length_embed (calls : nat) (t : string) : outcome Vector * nat :=
  (Returns [Z.of_nat (String.length t)], S calls).

(** A provider whose second call fails. *)
Definition flaky_embed (calls : nat) (t : string) : outcome Vector * nat :=
  if bool_decide (calls = 1%nat) then
    (Raises (Exc (Exception "TimeoutError" "embedding timed out")), S calls)
  else (Returns [Z.of_nat (String.length t)], S calls).

(** The sample start, for a provider that records its calls. *)
Definition sample_start_logged : Run (nat * call_log) :=
  {| disk := {| current := Some previous_generation; staging := [] |};
     provider := (0%nat, []); observed := [] |}.

(** A provider whose vectors depend on its state. *)
Definition counting_embed (calls : nat) (t : string) : outcome Vector * nat :=
  (Returns [Z.of_nat calls], S calls).

End Ingestion.
(** * The Streamlit front end

    [app_streamlit.py] is a script: Streamlit runs it top to bottom on every
    interaction.  Modelled here are the cached loader of lines 98-120 and
    the handler of the "Ask Agent" button, lines 127-197.  What the script
    shows is recorded as a list of UI events; the retrieval chain object is
    a collaborator reached through the four ways the handler calls it. *)

Module AppStreamlit.

(** What Streamlit is asked to show. *)
Inductive ui_event :=
| SidebarSuccess (msg : string)
| SidebarError (msg : string)
| SidebarWarning (msg : string)
| StWarning (msg : string)
| StMarkdown (msg : string)
| StWrite (text : string)
| StInfo (msg : string)
| StError (msg : string)
| StExpanderWrite (label text : string).

(** A metadata value: [None], a string or an integer. *)
Inductive scalar :=
| SNone
| SStr (s : string)
| SInt (z : Z).

(** Python's truth value. *)
Definition truthy (v : scalar) : bool :=
  match v with
  | SNone => false
  | SStr s => negb (bool_decide (s = ""))
  | SInt z => negb (bool_decide (z = 0))
  end.

(** [str(v)], as an f-string formats it. *)
Definition scalar_str (v : scalar) : string :=
  match v with
  | SNone => "None"
  | SStr s => s
  | SInt z => pretty z
  end.

(** [a or b]. *)
Definition py_or (a b : scalar) : scalar := if truthy a then a else b.

(** [a or b] on strings that may be [None]. *)
Definition str_or (a b : option string) : option string :=
  match a with
  | Some s => if bool_decide (s = "") then b else a
  | None => b
  end.

(** [meta.get(key)]: [None] for a missing key. *)
Definition meta_get (meta : gmap string scalar) (key : string) : scalar :=
  default SNone (meta !! key).

(** A source document as the handler tells them apart (lines 179-187): an
    object with a [page_content] attribute and possibly a [metadata]
    attribute; a dict, read through the keys [page_content], [text] and
    [metadata]; anything else, of which only [str(doc)] is used. *)
Inductive document :=
| Document (page_content : string) (metadata : option (gmap string scalar))
| DictDoc (page_content text : option string) (metadata : option (gmap string scalar))
| OtherDoc (str : string).

(** Lines 179-187. *)
Definition doc_text (doc : document) : string :=
  match doc with
  | Document page_content _ => page_content
  | DictDoc page_content text _ =>
      default "" (str_or (str_or page_content text) (Some ""))
  | OtherDoc str => str
  end.

Definition doc_meta (doc : document) : gmap string scalar :=
  match doc with
  | Document _ metadata => default ∅ metadata
  | DictDoc _ _ metadata =>
      match metadata with
      | Some m => if bool_decide (m = ∅) then ∅ else m
      | None => ∅
      end
  | OtherDoc _ => ∅
  end.

(** Line 188. *)
Definition source_label (meta : gmap string scalar) (i : nat) : scalar :=
  py_or (py_or (py_or (meta_get meta "source") (meta_get meta "filename"))
               (meta_get meta "doc_id"))
        (SStr ("source_" +:+ pretty i)).

(** A Python [str] is a sequence of code points; a [string] here holds its
    UTF-8 bytes.  A byte [10xxxxxx] continues the character begun before
    it, any other byte begins one. *)
Definition is_continuation (c : Ascii.ascii) : bool :=
  match c with
  | Ascii.Ascii _ _ _ _ _ _ b6 b7 => b7 && negb b6
  end.

(** [len(text)]: the number of characters. *)
Fixpoint py_len (text : string) : nat :=
  match text with
  | EmptyString => 0
  | String c rest => if is_continuation c then py_len rest else S (py_len rest)
  end.

(** [text[:n]]: the first [n] characters, each with all of its bytes. *)
Fixpoint py_take (n : nat) (text : string) : string :=
  match text with
  | EmptyString => EmptyString
  | String c rest =>
      if is_continuation c then String c (py_take n rest)
      else match n with
           | O => EmptyString
           | S n' => String c (py_take n' rest)
           end
  end.

(** Line 192: [text[:500] + ("..." if len(text) > 500 else "")]. *)
Definition preview (text : string) : string :=
  py_take 500 text +:+ (if (500 <? py_len text)%nat then "..." else "").

(** Lines 189-192, for the [i]-th displayed document. *)
Definition show_source (show_sources_checkbox : bool) (i : nat) (doc : document)
    : list ui_event :=
  let text := doc_text doc in
  let meta := doc_meta doc in
  StMarkdown ("**[" +:+ pretty i +:+ "] " +:+ scalar_str (source_label meta i) +:+ "**")
  :: (if show_sources_checkbox
      then [StExpanderWrite "Show document text" (preview text)]
      else []).

(** Lines 175-194: [enumerate(source_docs[:max_sources], start=1)]. *)
Definition show_sources (show_sources_checkbox : bool) (max_sources : nat)
    (source_docs : list document) : list ui_event :=
  match source_docs with
  | [] => [StInfo "No source documents returned by the retrieval chain."]
  | _ :: _ =>
      StMarkdown "### 📚 Source Documents"
      :: concat (imap (λ i doc, show_source show_sources_checkbox (S i) doc)
                      (take max_sources source_docs))
  end.

(** A dict returned by the chain, as read through the keys the handler
    looks up, with what [str()] of the whole dict gives. *)
Record rag_dict := {
  rd_result : option string;
  rd_answer : option string;
  rd_source_documents : option (list document);
  rd_str : string;
}.

(** What the chain returns: a dict, or something else of which only
    [str(rag_result)] is used. *)
Inductive rag_result :=
| RagDict (d : rag_dict)
| RagOther (str : string).

(** The retrieval chain object, through the calls of lines 138, 141, 143
    and 156-157. *)
Record ChainApi (C : Type) := {
  (* retrieval_chain({"query": query}) *)
  chain_call_dict : C → gmap string string → outcome rag_result;
  (* retrieval_chain.run(query) *)
  chain_run : C → string → outcome rag_result;
  (* retrieval_chain(query) *)
  chain_call : C → string → outcome rag_result;
  (* retrieval_chain.retriever.get_relevant_documents(query) *)
  retriever_documents : C → string → outcome (list document);
  (* isinstance(e, TypeError), for an exception the chain raised: true of
     TypeError and of its subclasses, which the class name does not tell *)
  isinstance_TypeError : exception → bool;
}.
Arguments chain_call_dict {C} _ _ _.
Arguments chain_run {C} _ _ _.
Arguments chain_call {C} _ _ _.
Arguments retriever_documents {C} _ _ _.
Arguments isinstance_TypeError {C} _ _.

(** Lines 136-143: the dict call; on [TypeError], [.run]; if that raises an
    [Exception], the plain call. *)
Definition invoke_chain {C} (api : ChainApi C) (chain : C) (query : string)
    : outcome rag_result :=
  match chain_call_dict api chain {[ "query" := query ]} with
  | Raises (Exc e) =>
      if isinstance_TypeError api e then
        match chain_run api chain query with
        | Raises (Exc _) => chain_call api chain query
        | other => other
        end
      else Raises (Exc e)
  | other => other
  end.

(** Lines 146-159: the answer text and the source documents. *)
Definition normalize {C} (api : ChainApi C) (chain : C) (query : string)
    (max_sources : nat) (rag : rag_result) : outcome (string * list document) :=
  match rag with
  | RagDict d =>
      Returns (default "" (str_or (str_or (rd_result d) (rd_answer d)) (Some (rd_str d))),
               default [] (rd_source_documents d))
  | RagOther str =>
      match retriever_documents api chain query with
      | Returns docs => Returns (str, take max_sources docs)
      | Raises (Exc _) => Returns (str, [])
      | Raises (BaseExc cls) => Raises (BaseExc cls)
      end
  end.

(** The agent returned by [get_agent] is a plain function; looking up an
    attribute a function does not have raises [AttributeError]. *)
Definition function_attribute_error (attr : string) : exception :=
  Exception "AttributeError" ("'function' object has no attribute '" +:+ attr +:+ "'").

(** Line 169: [agent.run(query)]. *)
Definition agent_run (agent : string → result string) (query : string)
    : outcome string :=
  Raises (Exc (function_attribute_error "run")).

(** Lines 165-172: what is shown, and the exception that ended the
    preview if it was not an [Exception]. *)
Definition agent_preview (agent : option (string → result string)) (query : string)
    : list ui_event * option raised :=
  match agent with
  | None => ([], None)
  | Some f =>
      match agent_run f query with
      | Returns text =>
          ([StMarkdown "### 🧰 Agent (tool-run preview)"; StWrite text], None)
      | Raises (Exc e) =>
          ([StMarkdown "### 🧰 Agent (tool-run preview)";
            StInfo ("Agent tool-run unavailable or failed: " +:+ exc_str e)], None)
      | Raises (BaseExc cls) =>
          ([StMarkdown "### 🧰 Agent (tool-run preview)"], Some (BaseExc cls))
      end
  end.

(** What a run of the handler leaves: what was shown, and the exception
    that ended it, if one was not handled. *)
Record shown := {
  events : list ui_event;
  uncaught : option raised;
}.

Definition no_query_warning : string :=
  "No query entered or retrieval chain not initialized. Rebuild index / check logs.".

(** Lines 127-197, when the button is pressed. *)
Definition handle_ask {C} (api : ChainApi C) (query : string)
    (retrieval_chain : option C) (agent : option (string → result string))
    (show_sources_checkbox : bool) (max_sources : nat) : shown :=
  match retrieval_chain with
  | None => {| events := [StWarning no_query_warning]; uncaught := None |}
  | Some chain =>
      if bool_decide (query = "") then
        {| events := [StWarning no_query_warning]; uncaught := None |}
      else
        match outcome_bind (invoke_chain api chain query)
                           (normalize api chain query max_sources) with
        | Raises (Exc e) =>
            {| events := [StError ("Error while running retrieval/agent: " +:+ exc_str e)];
               uncaught := None |}
        | Raises (BaseExc cls) => {| events := []; uncaught := Some (BaseExc cls) |}
        | Returns (answer_text, source_docs) =>
            let answer := [StMarkdown "### 🤖 Agent Answer"; StWrite answer_text] in
            match agent_preview agent query with
            | (previewed, Some r) =>
                {| events := answer ++ previewed; uncaught := Some r |}
            | (previewed, None) =>
                {| events := answer ++ previewed
                             ++ show_sources show_sources_checkbox max_sources source_docs;
                   uncaught := None |}
            end
        end
  end.

(** An exception that [except Exception] catches. *)
Definition caught (f : failure) : option exception :=
  match f with
  | Own e => Some e
  | Propagated (Exc e) => Some e
  | Propagated (BaseExc _) => None
  end.

(** What the loader leaves: the two handles, the collaborator calls made,
    the sidebar messages, and the exception that ended it, if any. *)
Record loaded (W : World) := {
  qa_chain : option (Chain W);
  agent : option (string → result string);
  calls : trace;
  sidebar : list ui_event;
  escaped : option failure;
}.
Arguments qa_chain {W} _.
Arguments agent {W} _.
Arguments calls {W} _.
Arguments sidebar {W} _.
Arguments escaped {W} _.

(** Lines 98-120, on the first run (the decorator caches the result). *)
Definition load_rag_and_agent (W : World) : loaded W :=
  let '(chain_result, t1) := get_retrieval_chain W default_vectorstore_path [] in
  let chain_step :=
    match chain_result with
    | Ok chain =>
        inr (Some chain, [SidebarSuccess "✅ Retrieval chain initialized successfully."])
    | Fail f =>
        match caught f with
        | Some e => inr (None, [SidebarError ("Failed to init retrieval chain: " +:+ exc_str e)])
        | None => inl f
        end
    end in
  match chain_step with
  | inl f => {| qa_chain := None; agent := None; calls := t1; sidebar := [];
                escaped := Some f |}
  | inr (chain, messages) =>
      let '(agent_result, t2) := get_agent W t1 in
      match agent_result with
      | Ok f =>
          {| qa_chain := chain; agent := Some f; calls := t2;
             sidebar := messages ++ [SidebarSuccess "✅ Agent initialized successfully."];
             escaped := None |}
      | Fail f =>
          match caught f with
          | Some e =>
              {| qa_chain := chain; agent := None; calls := t2;
                 sidebar := messages ++ [SidebarWarning ("Failed to init agent: " +:+ exc_str e)];
                 escaped := None |}
          | None =>
              {| qa_chain := chain; agent := None; calls := t2; sidebar := messages;
                 escaped := Some f |}
          end
      end
  end.

(** Lines 123-130 and on: load, then handle the button. *)
Definition ask_script (W : World) (api : ChainApi (Chain W)) (query : string)
    (show_sources_checkbox : bool) (max_sources : nat) : option shown :=
  let l := load_rag_and_agent W in
  match escaped l with
  | Some _ => None
  | None => Some (handle_ask api query (qa_chain l) (agent l)
                             show_sources_checkbox max_sources)
  end.

(** ** Stand-in chains and worlds for the front end *)

Definition lot1_document : document :=
  Document "CD drift observed on lot L1234 at step 12"
           (Some {[ "source" := SStr "lot1.log" ]}).

Definition unlabelled_document : document :=
  DictDoc None (Some "etch rate nominal") None.

(** A chain that answers with a dict, as a chain built with
    [return_source_documents=True] would. *)
Definition answering_api : ChainApi unit := {|
  chain_call_dict := λ _ inputs,
    Returns (RagDict {| rd_result := Some "The chamber temperature drifted.";
                        rd_answer := None;
                        rd_source_documents := Some [lot1_document; unlabelled_document];
                        rd_str := "{...}" |});
  chain_run := λ _ _, Raises (Exc (Exception "ValueError" "run not supported"));
  chain_call := λ _ _, Raises (Exc (Exception "ValueError" "Missing some input keys"));
  retriever_documents := λ _ _, Returns [lot1_document];
  isinstance_TypeError := λ e, bool_decide (exc_class e = "TypeError");
|}.

(** A chain whose dict call is refused with a [ValueError]. *)
Definition refusing_api : ChainApi unit := {|
  chain_call_dict := λ _ _, Raises (Exc (Exception "ValueError" "Missing some input keys"));
  chain_run := λ _ _, Returns (RagOther "never reached");
  chain_call := λ _ _, Returns (RagOther "never reached");
  retriever_documents := λ _ _, Returns [];
  isinstance_TypeError := λ e, bool_decide (exc_class e = "TypeError");
|}.

(** A chain that only takes a plain string and answers with one. *)
Definition plain_api : ChainApi unit := {|
  chain_call_dict := λ _ _, Raises (Exc (Exception "TypeError" "expected str"));
  chain_run := λ _ q, Returns (RagOther ("echo: " +:+ q));
  chain_call := λ _ q, Returns (RagOther ("echo: " +:+ q));
  retriever_documents := λ _ _,
    Returns [lot1_document; unlabelled_document; OtherDoc "third"];
  isinstance_TypeError := λ e, bool_decide (exc_class e = "TypeError");
|}.

(** A chain whose retriever cannot be reached. *)
Definition no_retriever_api : ChainApi unit := {|
  chain_call_dict := λ _ _, Returns (RagOther "plain answer");
  chain_run := λ _ _, Returns (RagOther "plain answer");
  chain_call := λ _ _, Returns (RagOther "plain answer");
  retriever_documents := λ _ _,
    Raises (Exc (Exception "AttributeError" "object has no attribute 'retriever'"));
  isinstance_TypeError := λ e, bool_decide (exc_class e = "TypeError");
|}.

(** A world like [stub_world] whose index loads as [load] says and whose
    tools behave as [stats] and [rule] say. *)
Definition tools_world (load : outcome stub_vectorstore)
    (stats : list number → outcome nat)
    (rule : number → number → outcome bool) : World := {|
  Embeddings := stub_embeddings;
  VectorStore := stub_vectorstore;
  LLM := unit;
  Retriever := stub_vectorstore * gmap string Z;
  Chain := unit;
  Memory := unit;
  Prompt := string;
  Stats := nat;
  RuleFlag := bool;
  os_path_exists := λ p, bool_decide (p = default_vectorstore_path);
  HuggingFaceEmbeddings := λ m, Returns {| se_model_name := m; se_dimension := 384 |};
  FAISS_load_local := λ _ _ _, load;
  OpenAI := λ _, Returns tt;
  as_retriever := λ vs kw, Returns (vs, kw);
  RetrievalQA_from_chain_type := λ _ _ _ _, Returns tt;
  ConversationBufferMemory := λ _ _, Returns tt;
  PromptTemplate := λ t _, Returns t;
  prompt_format := λ t kw, Returns t;
  llm_call := λ _ text, Returns text;
  compute_stats := stats;
  simple_rule_check := rule;
|}.

(** The index file cannot be read. *)
Definition unreadable_index_world : World :=
  tools_world (Raises (Exc (Exception "RuntimeError" "could not open index.faiss")))
              (λ l, Returns (length l))
              (λ val threshold, Returns (stub_rule_check val threshold)).

(** The rule check refuses negative integers. *)
Definition strict_rule (val threshold : number) : outcome bool :=
  match val with
  | PyInt z =>
      if z <? 0 then Raises (Exc (Exception "ValueError" "negative measurement"))
      else Returns (stub_rule_check val threshold)
  | _ => Returns (stub_rule_check val threshold)
  end.

Definition strict_tools_world : World :=
  tools_world (Raises (Exc (Exception "RuntimeError" "could not open index.faiss")))
              (λ l, Returns (length l)) strict_rule.

(** No OpenAI key: the client cannot be constructed. *)
Definition no_key_world : World := {|
  Embeddings := unit; VectorStore := unit; LLM := unit; Retriever := unit;
  Chain := unit; Memory := unit; Prompt := string; Stats := nat; RuleFlag := bool;
  os_path_exists := λ _, false;
  HuggingFaceEmbeddings := λ _, Returns tt;
  FAISS_load_local := λ _ _ _, Returns tt;
  OpenAI := λ _, Raises (Exc (Exception "ValidationError" "Did not find openai_api_key"));
  as_retriever := λ _ _, Returns tt;
  RetrievalQA_from_chain_type := λ _ _ _ _, Returns tt;
  ConversationBufferMemory := λ _ _, Returns tt;
  PromptTemplate := λ t _, Returns t;
  prompt_format := λ t _, Returns t;
  llm_call := λ _ text, Returns text;
  compute_stats := λ l, Returns (length l);
  simple_rule_check := λ val threshold, Returns (stub_rule_check val threshold);
|}.

End AppStreamlit.

(** The index directory is there but [index.pkl] is not: loading raises
    [FileNotFoundError]. *)
Definition missing_pickle_world : World :=
  AppStreamlit.tools_world
    (Raises (Exc (Exception "FileNotFoundError"
       "[Errno 2] No such file or directory: 'vectorstore/faiss_index/index.pkl'")))
    (λ l, Returns (length l))
    (λ val threshold, Returns (stub_rule_check val threshold)).

(** * Theorems about the orchestrator *)

(** ** Name lookup *)

Lemma global_bound (name : string) :
  name ∈ module_namespace → global name = ret tt.
Proof.
  intros Hin. unfold global. by rewrite bool_decide_eq_true_2.
Qed.

Lemma RetrievalQA_unbound : "RetrievalQA" ∉ module_namespace.
Proof.
  intros Hin. apply (bool_decide_eq_true_2 _) in Hin. vm_compute in Hin. discriminate.
Qed.

Lemma global_RetrievalQA : global "RetrievalQA" = raise (NameError "RetrievalQA").
Proof.
  unfold global. by rewrite bool_decide_eq_false_2 by apply RetrievalQA_unbound.
Qed.

Ltac bound_name :=
  apply bool_decide_eq_true_1; vm_compute; reflexivity.

Lemma bind_ret_tt {A} (k : unit → M A) : bind (ret tt) k = k tt.
Proof. reflexivity. Qed.

Ltac resolve_globals :=
  repeat match goal with
    | |- context [global "RetrievalQA"] => rewrite global_RetrievalQA
    | |- context [global ?n] => rewrite (global_bound n) by bound_name
    end;
  rewrite ?bind_ret_tt.

(** ** The shape of [get_retrieval_chain]'s runs *)

(** With the index missing nothing is called. *)
Lemma get_retrieval_chain_missing (W : World) (p : string) :
  os_path_exists W p = false →
  run (get_retrieval_chain W p)
  = (Fail (Own (FileNotFoundError (not_found_message p))), []).
Proof.
  intros Hex. unfold get_retrieval_chain. resolve_globals.
  rewrite Hex. simpl. resolve_globals. reflexivity.
Qed.

(** With the index present the run ends at the first collaborator that
    raises, and otherwise at the lookup of [RetrievalQA]. *)
Lemma get_retrieval_chain_present (W : World) (p : string) :
  os_path_exists W p = true →
  run (get_retrieval_chain W p)
  = match HuggingFaceEmbeddings W embedding_model_name with
    | Raises r => (Fail (Propagated r), [EvHuggingFaceEmbeddings embedding_model_name])
    | Returns embeddings =>
      match FAISS_load_local W p embeddings true with
      | Raises r => (Fail (Propagated r),
                     [EvHuggingFaceEmbeddings embedding_model_name;
                      EvFAISS_load_local p true])
      | Returns vectorstore =>
        match OpenAI W (PyInt 0) with
        | Raises r => (Fail (Propagated r),
                       [EvHuggingFaceEmbeddings embedding_model_name;
                        EvFAISS_load_local p true; EvOpenAI (PyInt 0)])
        | Returns llm =>
          match as_retriever W vectorstore search_kwargs with
          | Raises r => (Fail (Propagated r),
                         [EvHuggingFaceEmbeddings embedding_model_name;
                          EvFAISS_load_local p true; EvOpenAI (PyInt 0);
                          EvAsRetriever search_kwargs])
          | Returns _ => (Fail (Own (NameError "RetrievalQA")),
                          [EvHuggingFaceEmbeddings embedding_model_name;
                           EvFAISS_load_local p true; EvOpenAI (PyInt 0);
                           EvAsRetriever search_kwargs])
          end
        end
      end
    end.
Proof.
  intros Hex. unfold get_retrieval_chain. resolve_globals.
  rewrite Hex. simpl. resolve_globals.
  unfold run, bind, call, raise.
  destruct (HuggingFaceEmbeddings W embedding_model_name) as [emb|r]; [|reflexivity].
  resolve_globals.
  destruct (FAISS_load_local W p emb true) as [vs|r]; [|reflexivity].
  resolve_globals.
  destruct (OpenAI W (PyInt 0)) as [llm|r]; [|reflexivity].
  destruct (as_retriever W vs search_kwargs) as [retr|r]; [|reflexivity].
  resolve_globals. reflexivity.
Qed.

(** No run of [get_retrieval_chain] returns a chain. *)
Lemma get_retrieval_chain_never_returns (W : World) (p : string) :
  is_ok (run (get_retrieval_chain W p)).1 = false.
Proof.
  destruct (os_path_exists W p) eqn:Hex.
  - rewrite (get_retrieval_chain_present W p Hex).
    repeat case_match; reflexivity.
  - by rewrite (get_retrieval_chain_missing W p Hex).
Qed.

(** ** Loading a missing index *)

(** C2, as stated, fails.  In [missing_pickle_world] the path exists and
    the caller still gets a [FileNotFoundError], the one [FAISS.load_local]
    raises for the missing [index.pkl]: a not-found error does not tell the
    caller that nothing exists at the path. *)
Lemma not_found_with_path_present :
  ¬ ((∃ f, (run (get_retrieval_chain missing_pickle_world default_vectorstore_path)).1
           = Fail f
           ∧ failure_class f = "FileNotFoundError")
     ↔ os_path_exists missing_pickle_world default_vectorstore_path = false).
Proof.
  intros [Hfails _].
  assert (os_path_exists missing_pickle_world default_vectorstore_path = false)
    as Hmissing; [|discriminate Hmissing].
  apply Hfails. eexists. split.
  - by rewrite get_retrieval_chain_present.
  - reflexivity.
Qed.

(** C2 (as amended). For every path: when nothing exists at it,
    [get_retrieval_chain] fails with
    [FileNotFoundError("Vectorstore not found at <path>")], raised before
    any collaborator is called, so nothing has been constructed, and
    nothing inside the function handles it.  When something exists at the
    path the guard does not fire: a [FileNotFoundError] that reaches the
    caller then is one a collaborator raised, after at least one
    collaborator call. *)
Theorem get_retrieval_chain_not_found (W : World) (p : string) :
  if os_path_exists W p then
    ∀ f, (run (get_retrieval_chain W p)).1 = Fail f →
         failure_class f = "FileNotFoundError" →
         (∃ r, f = Propagated r ∧ raised_class r = "FileNotFoundError")
         ∧ (run (get_retrieval_chain W p)).2 ≠ []
  else
    ∃ f, run (get_retrieval_chain W p) = (Fail f, [])
         ∧ f = Own (FileNotFoundError (not_found_message p))
         ∧ failure_class f = "FileNotFoundError"
         ∧ exc_str (FileNotFoundError (not_found_message p))
           = "Vectorstore not found at " +:+ p.
Proof.
  destruct (os_path_exists W p) eqn:Hex.
  - rewrite (get_retrieval_chain_present W p Hex).
    intros f. repeat case_match; simpl; intros [= <-] Hclass;
      first [discriminate Hclass | split; [by eexists|discriminate]].
  - rewrite (get_retrieval_chain_missing W p Hex). by eexists.
Qed.

(** Nothing at the path: the guard's error, and no call was made. *)
Example get_retrieval_chain_nowhere :
  run (get_retrieval_chain healthy_world "nowhere")
  = (Fail (Own (Exception "FileNotFoundError" "Vectorstore not found at nowhere")), []).
Proof. by rewrite get_retrieval_chain_missing. Qed.

(** ** The retriever's [k] *)

(** The keyword arguments of every retriever request are the ones of line
    23. *)
Lemma as_retriever_kwargs (W : World) (p : string) (kw : gmap string Z) :
  EvAsRetriever kw ∈ (run (get_retrieval_chain W p)).2 → kw = search_kwargs.
Proof.
  intros Hin. destruct (os_path_exists W p) eqn:Hex.
  - rewrite (get_retrieval_chain_present W p Hex) in Hin.
    repeat case_match; simpl in Hin;
      repeat (apply elem_of_cons in Hin as [Hin|Hin]; [by simplify_eq|]);
      by apply elem_of_nil in Hin.
  - rewrite (get_retrieval_chain_missing W p Hex) in Hin.
    by apply elem_of_nil in Hin.
Qed.

(** C4, as stated, fails.  The claim describes [k] as an input of the query
    entry point: 3 unless given, and any integer from 1 up when given.
    [get_retrieval_chain] has no such input: in no world and for no path
    is a retriever requested with [k = 1]. *)
Lemma k_is_not_an_input :
  ¬ (∀ k : Z, 1 ≤ k →
       ∃ (W : World) (p : string),
         EvAsRetriever {[ "k" := k ]} ∈ (run (get_retrieval_chain W p)).2).
Proof.
  intros Hany. destruct (Hany 1) as (W & p & Hin); [lia|].
  apply as_retriever_kwargs in Hin.
  apply (f_equal (λ kw : gmap string Z, kw !! "k")) in Hin.
  vm_compute in Hin. discriminate Hin.
Qed.

(** C4 (as amended). [k] is a constant of [get_retrieval_chain], not a
    default: whatever the path and the collaborators, every retriever it
    asks the store for is requested with [search_kwargs = {"k": 3}], so the
    number of chunks requested is the integer 3, which is at least 1. *)
Theorem retriever_requests_top_3 (W : World) (p : string) (kw : gmap string Z) :
  EvAsRetriever kw ∈ (run (get_retrieval_chain W p)).2 →
  kw = {[ "k" := 3 ]} ∧ ∃ k : Z, kw !! "k" = Some k ∧ k = 3 ∧ 1 ≤ k.
Proof.
  intros Hin. apply as_retriever_kwargs in Hin as ->.
  split; [reflexivity|]. exists 3. split; [reflexivity|]. lia.
Qed.

Lemma retriever_requests_top_3_witness :
  EvAsRetriever search_kwargs
    ∈ (run (get_retrieval_chain healthy_world default_vectorstore_path)).2
  ∧ search_kwargs = {[ "k" := 3 ]}
  ∧ ∃ k : Z, search_kwargs !! "k" = Some k ∧ k = 3 ∧ 1 ≤ k.
Proof.
  assert (EvAsRetriever search_kwargs
            ∈ (run (get_retrieval_chain healthy_world default_vectorstore_path)).2)
    as Hin.
  { rewrite get_retrieval_chain_present by reflexivity. simpl.
    do 3 apply list_elem_of_further. apply list_elem_of_here. }
  split; [exact Hin|].
  exact (retriever_requests_top_3 healthy_world default_vectorstore_path
           search_kwargs Hin).
Defined.

(** ** The chain is never built *)

(** C3. At an existing index with every collaborator working,
    [get_retrieval_chain] stops at line 25 with
    [NameError: name 'RetrievalQA' is not defined], after the embedding
    model, the store, the model client and the retriever were built: the
    class is used but imported nowhere, so no chain, and hence no answer
    with source documents, is ever produced. *)
Theorem get_retrieval_chain_healthy_NameError :
  run (get_retrieval_chain healthy_world default_vectorstore_path)
  = (Fail (Own (NameError "RetrievalQA")),
     [EvHuggingFaceEmbeddings embedding_model_name;
      EvFAISS_load_local default_vectorstore_path true;
      EvOpenAI (PyInt 0);
      EvAsRetriever search_kwargs])
  ∧ ∀ (W : World) (p : string), is_ok (run (get_retrieval_chain W p)).1 = false.
Proof.
  split.
  - by rewrite get_retrieval_chain_present.
  - apply get_retrieval_chain_never_returns.
Qed.

(** ** Embedding-model mismatch *)

(** C6, as stated, fails: the index at the default path of
    [mismatch_world] was built with a
    768-dimensional model, the query-time model has 384 dimensions, the
    store loads all the same, and the failure that reaches the caller is not
    a [ConfigMismatchError]. *)
Lemma no_ConfigMismatchError_on_mismatch :
  ¬ (∀ emb vs,
       HuggingFaceEmbeddings mismatch_world embedding_model_name = Returns emb →
       FAISS_load_local mismatch_world default_vectorstore_path emb true = Returns vs →
       vs_dimension vs ≠ se_dimension emb →
       ∃ f, (run (get_retrieval_chain mismatch_world default_vectorstore_path)).1 = Fail f
            ∧ failure_class f = "ConfigMismatchError").
Proof.
  intros H.
  destruct (H {| se_model_name := embedding_model_name; se_dimension := 384 |}
              {| vs_built_with := "sentence-transformers/all-mpnet-base-v2";
                 vs_dimension := 768;
                 vs_embeddings := {| se_model_name := embedding_model_name;
                                     se_dimension := 384 |} |})
    as (f & Hf & Hcls); [reflexivity|reflexivity|simpl; lia|].
  rewrite get_retrieval_chain_present in Hf by reflexivity.
  simpl in Hf. injection Hf as <-. discriminate Hcls.
Qed.

(** C6 (as amended). [get_retrieval_chain] compares nothing: the embedding
    model it asks for is always ["sentence-transformers/all-MiniLM-L6-v2"],
    whatever index is stored at the path; the store is loaded with exactly
    that model's handle; and no exception raised by its own statements is a
    [ConfigMismatchError]. *)
Theorem get_retrieval_chain_fixed_embedding_model (W : World) (p : string) :
  Forall (λ ev, match ev with
                | EvHuggingFaceEmbeddings m => m = embedding_model_name
                | _ => True
                end) (run (get_retrieval_chain W p)).2
  ∧ (∀ e, (run (get_retrieval_chain W p)).1 = Fail (Own e) →
          exc_class e ≠ "ConfigMismatchError")
  ∧ (os_path_exists W p = true →
     ∀ emb, HuggingFaceEmbeddings W embedding_model_name = Returns emb →
      take 2 (run (get_retrieval_chain W p)).2
      = [EvHuggingFaceEmbeddings embedding_model_name; EvFAISS_load_local p true]).
Proof.
  destruct (os_path_exists W p) eqn:Hex.
  - rewrite (get_retrieval_chain_present W p Hex).
    split; [|split].
    + repeat case_match; repeat constructor.
    + intros e. repeat case_match; simpl; intros ?; simplify_eq; discriminate.
    + intros _ emb ->. repeat case_match; reflexivity.
  - rewrite (get_retrieval_chain_missing W p Hex).
    split; [constructor|split; [|discriminate]].
    simpl. intros e ?; simplify_eq. discriminate.
Qed.

(** ** Provider failures in [agent_response] *)

Lemma prefix_append (s t : string) : String.prefix s (s +:+ t) = true.
Proof.
  induction s as [|c s IH]; simpl.
  - by destruct t.
  - destruct (Ascii.ascii_dec c c); [exact IH|done].
Qed.

(** C1. For every question, when the call to the language model raises an
    [Exception] -- in the model call itself or while the prompt is being
    formatted for it -- [agent_response] returns a string, namely the marker
    ["Error while generating response: "] followed by [str(e)]; the
    exception does not reach the caller. *)
Theorem agent_response_contains_provider_failure
    (W : World) (prompt : Prompt W) (llm : LLM W) (question : string) (e : exception) :
  outcome_bind (prompt_format W prompt {[ "question" := question ]}) (llm_call W llm)
  = Raises (Exc e) →
  ∃ answer_text : string,
    agent_response W prompt llm question = Ok answer_text
    ∧ answer_text = error_marker +:+ exc_str e
    ∧ String.prefix error_marker answer_text = true.
Proof.
  intros Hraise. exists (error_marker +:+ exc_str e).
  unfold agent_response. rewrite Hraise.
  split; [reflexivity|]. split; [reflexivity|]. apply prefix_append.
Qed.

Lemma agent_response_contains_provider_failure_witness :
  ∃ answer_text : string,
    agent_response provider_down_world template tt "Why did lot L1234 show CD drift?"
    = Ok answer_text
    ∧ answer_text = error_marker +:+ "Connection error."
    ∧ String.prefix error_marker answer_text = true.
Proof.
  exact (agent_response_contains_provider_failure provider_down_world template tt
           "Why did lot L1234 show CD drift?"
           (Exception "APIConnectionError" "Connection error.") eq_refl).
Defined.

(** What the closure returned by [get_agent] is. *)
Lemma get_agent_returns_agent_response (W : World) (f : string → result string) (t : trace) :
  run (get_agent W) = (Ok f, t) →
  ∃ prompt llm,
    PromptTemplate W template ["question"] = Returns prompt
    ∧ OpenAI W (PyFloat 3 (-1)) = Returns llm
    ∧ f = agent_response W prompt llm.
Proof.
  unfold get_agent. resolve_globals. unfold run, bind, call, ret.
  destruct (ConversationBufferMemory W "chat_history" true); [|discriminate].
  resolve_globals.
  destruct (PromptTemplate W template ["question"]) as [prompt|]; [|discriminate].
  resolve_globals.
  destruct (OpenAI W (PyFloat 3 (-1))) as [llm|]; [|discriminate].
  intros [= <- <-]. by exists prompt, llm.
Qed.

(** An exception that is not an [Exception] is not caught. *)
Lemma agent_response_propagates_base_exception
    (W : World) (prompt : Prompt W) (llm : LLM W) (question cls : string) :
  outcome_bind (prompt_format W prompt {[ "question" := question ]}) (llm_call W llm)
  = Raises (BaseExc cls) →
  agent_response W prompt llm question = Fail (Propagated (BaseExc cls)).
Proof. intros H. unfold agent_response. by rewrite H. Qed.

(** Without a failure the model's answer is returned as it is. *)
Lemma agent_response_returns_answer
    (W : World) (prompt : Prompt W) (llm : LLM W) (question answer : string) :
  outcome_bind (prompt_format W prompt {[ "question" := question ]}) (llm_call W llm)
  = Returns answer →
  agent_response W prompt llm question = Ok answer.
Proof. intros H. unfold agent_response. by rewrite H. Qed.

(** ** [analyze_vm_data] *)

(** A comprehension returns exactly when every element's call returns, and
    then it returns the results in the order of the input. *)
Lemma comprehension_Returns {A B} (f : A → outcome B) (l : list A) (ys : list B) :
  comprehension f l = Returns ys ↔ Forall2 (λ x y, f x = Returns y) l ys.
Proof.
  revert ys. induction l as [|x l IH]; intros ys; simpl.
  - split.
    + intros [= <-]. constructor.
    + intros H. by apply Forall2_nil_inv_l in H as ->.
  - split.
    + destruct (f x) as [y|r] eqn:Hfx; simpl; [|discriminate].
      destruct (comprehension f l) as [ys'|r] eqn:Hrest; simpl; [|discriminate].
      intros [= <-]. constructor; [exact Hfx|]. by apply IH.
    + intros H. apply Forall2_cons_inv_l in H as (y & ys' & Hfx & Hrest & ->).
      rewrite Hfx. simpl. apply IH in Hrest. by rewrite Hrest.
Qed.

(** The first element whose call raises ends the comprehension with that
    exception. *)
Lemma comprehension_Raises {A B} (f : A → outcome B) (l1 l2 : list A) (x : A)
    (ys : list B) (r : raised) :
  Forall2 (λ x y, f x = Returns y) l1 ys →
  f x = Raises r →
  comprehension f (l1 ++ x :: l2) = Raises r.
Proof.
  intros Hl1 Hx. revert ys Hl1. induction l1 as [|a l1 IH]; intros ys Hl1; simpl.
  - by rewrite Hx.
  - apply Forall2_cons_inv_l in Hl1 as (y & ys' & Hfa & Hrest & ->).
    rewrite Hfa. simpl. by rewrite (IH ys' Hrest).
Qed.

(** C10. For every list of numbers on which the two helpers return,
    [analyze_vm_data] returns a dict with the keys ["stats"] and ["rules"]:
    ["stats"] holds what [compute_stats(data_list)] returned, ["rules"] is a
    list as long as [data_list] whose i-th entry is what
    [simple_rule_check(data_list[i], 0.005)] returned. *)
Theorem analyze_vm_data_stats_and_rules
    (W : World) (data_list : list number) (stats : Stats W) (flags : list (RuleFlag W)) :
  compute_stats W data_list = Returns stats →
  Forall2 (λ val flag, simple_rule_check W val (PyFloat 5 (-3)) = Returns flag)
          data_list flags →
  ∃ d : gmap string (value W),
    analyze_vm_data W data_list = Ok d
    ∧ d !! "stats" = Some (VStats stats)
    ∧ d !! "rules" = Some (VRules flags)
    ∧ dom d = {[ "stats"; "rules" ]}
    ∧ length flags = length data_list
    ∧ ∀ (i : nat) (val : number), data_list !! i = Some val →
        ∃ flag, flags !! i = Some flag
                ∧ simple_rule_check W val (PyFloat 5 (-3)) = Returns flag.
Proof.
  intros Hstats Hrules.
  exists (<["stats" := VStats stats]> (<["rules" := VRules flags]> ∅)).
  unfold analyze_vm_data. rewrite Hstats.
  pose proof Hrules as Hcomp. apply comprehension_Returns in Hcomp.
  unfold rule_threshold. rewrite Hcomp.
  split; [reflexivity|].
  split; [by rewrite lookup_insert_eq|].
  split; [by rewrite lookup_insert_ne, lookup_insert_eq|].
  split; [rewrite !dom_insert_L, dom_empty_L; set_solver|].
  split; [symmetry; by eapply Forall2_length|].
  intros i val Hi.
  destruct (Forall2_lookup_l _ _ _ _ _ Hrules Hi) as (flag & Hflag & Hcall).
  by exists flag.
Qed.

Lemma analyze_vm_data_stats_and_rules_witness :
  ∃ d : gmap string (value healthy_world),
    analyze_vm_data healthy_world [PyInt 1; PyFloat 1 (-3); PyInt 0] = Ok d
    ∧ d !! "stats" = Some (VStats (3%nat : Stats healthy_world))
    ∧ d !! "rules" = Some (VRules ([true; false; false] : list (RuleFlag healthy_world)))
    ∧ dom d = {[ "stats"; "rules" ]}
    ∧ length [true; false; false] = length [PyInt 1; PyFloat 1 (-3); PyInt 0]
    ∧ ∀ (i : nat) (val : number),
        [PyInt 1; PyFloat 1 (-3); PyInt 0] !! i = Some val →
        ∃ flag, [true; false; false] !! i = Some flag
                ∧ simple_rule_check healthy_world val (PyFloat 5 (-3)) = Returns flag.
Proof.
  apply (analyze_vm_data_stats_and_rules healthy_world
           [PyInt 1; PyFloat 1 (-3); PyInt 0] 3%nat [true; false; false]).
  - reflexivity.
  - repeat constructor.
Defined.

(** Conversely, a dict that [analyze_vm_data] returns has this shape. *)
Lemma analyze_vm_data_inv (W : World) (data_list : list number)
    (d : gmap string (value W)) :
  analyze_vm_data W data_list = Ok d →
  ∃ stats flags,
    compute_stats W data_list = Returns stats
    ∧ Forall2 (λ val flag, simple_rule_check W val rule_threshold = Returns flag)
              data_list flags
    ∧ d = <["stats" := VStats stats]> (<["rules" := VRules flags]> ∅).
Proof.
  unfold analyze_vm_data.
  destruct (compute_stats W data_list) as [stats|]; [|discriminate].
  destruct (comprehension _ data_list) as [flags|] eqn:Hcomp; [|discriminate].
  intros [= <-]. exists stats, flags.
  split; [reflexivity|]. split; [|reflexivity]. by apply comprehension_Returns.
Qed.

(** A helper that raises makes [analyze_vm_data] raise the same. *)
Lemma analyze_vm_data_compute_stats_raises (W : World) (data_list : list number)
    (r : raised) :
  compute_stats W data_list = Raises r →
  analyze_vm_data W data_list = Fail (Propagated r).
Proof. intros H. unfold analyze_vm_data. by rewrite H. Qed.

(** * Theorems about the document store *)

Module DocumentStoreFacts.
Import DocumentStore.

Lemma insert_ranked_Permutation {A} (key : A → Score) (x : A) (l : list A) :
  insert_ranked key x l ≡ₚ x :: l.
Proof.
  induction l as [|y l IH]; simpl; [done|].
  case_match; [|done]. rewrite IH. apply Permutation_swap.
Qed.

Lemma rank_descending_Permutation {A} (key : A → Score) (l : list A) :
  rank_descending key l ≡ₚ l.
Proof.
  induction l as [|x l IH]; simpl; [done|].
  fold (rank_descending key l). by rewrite insert_ranked_Permutation, IH.
Qed.

Lemma rank_descending_length {A} (key : A → Score) (l : list A) :
  length (rank_descending key l) = length l.
Proof. apply Permutation_length, rank_descending_Permutation. Qed.

(** Ranking commutes with relabelling the elements. *)
Lemma insert_ranked_fmap {A B} (f : A → B) (key : B → Score) (x : A) (l : list A) :
  insert_ranked key (f x) (f <$> l) = f <$> insert_ranked (key ∘ f) x l.
Proof.
  induction l as [|y l IH]; [done|].
  rewrite fmap_cons. simpl.
  destruct (key (f x) <? key (f y)); [|done].
  rewrite fmap_cons. by rewrite IH.
Qed.

Lemma rank_descending_fmap {A B} (f : A → B) (key : B → Score) (l : list A) :
  rank_descending key (f <$> l) = f <$> rank_descending (key ∘ f) l.
Proof.
  unfold rank_descending. induction l as [|x l IH]; [done|].
  rewrite fmap_cons. cbn [foldr]. rewrite IH. apply insert_ranked_fmap.
Qed.

(** Inserting a position that precedes all the ranked ones keeps the
    ranking in order. *)
Lemma insert_ranked_sorted (key : nat → Score) (p : nat) (l : list nat) :
  StronglySorted (ranks_before key) l →
  Forall (λ q, (p < q)%nat) l →
  StronglySorted (ranks_before key) (insert_ranked key p l).
Proof.
  induction 1 as [|y l Hl IH Hy]; intros Hlt; simpl.
  - repeat constructor.
  - apply Forall_cons in Hlt as [Hpy Hpl].
    destruct (key p <? key y) eqn:Hcmp.
    + apply Z.ltb_lt in Hcmp. constructor; [by apply IH|].
      rewrite insert_ranked_Permutation. constructor; [by left|done].
    + apply Z.ltb_ge in Hcmp. constructor; [by constructor|].
      assert (ranks_before key p y) as Hfirst.
      { unfold ranks_before. destruct (decide (key y = key p)); [by right|left; lia]. }
      constructor; [done|].
      apply Forall_forall. intros q Hq.
      pose proof (proj1 (Forall_forall _ _) Hy q Hq) as Hyq.
      pose proof (proj1 (Forall_forall _ _) Hpl q Hq) as Hpq.
      revert Hyq Hpq Hfirst. unfold ranks_before. lia.

Qed.

(** The ranking of consecutive ingestion positions is in order. *)
Lemma rank_seq_sorted (key : nat → Score) (a n : nat) :
  StronglySorted (ranks_before key) (rank_descending key (seq a n)).
Proof.
  revert a. induction n as [|n IH]; intros a; simpl; [constructor|].
  fold (rank_descending key (seq (S a) n)).
  apply insert_ranked_sorted; [apply IH|].
  rewrite rank_descending_Permutation. apply Forall_forall.
  intros q Hq. apply elem_of_seq in Hq. lia.
Qed.

(** Scores never increase along a ranking. *)
Lemma rank_descending_sorted {A} (key : A → Score) (l : list A) :
  StronglySorted (λ a b, key b ≤ key a) (rank_descending key l).
Proof.
  unfold rank_descending. induction l as [|x l IH]; simpl; [constructor|].
  revert IH. generalize (foldr (insert_ranked key) [] l). clear l.
  intros r. induction 1 as [|y r Hr IH Hy]; simpl; [repeat constructor|].
  destruct (key x <? key y) eqn:Hcmp.
  - apply Z.ltb_lt in Hcmp. constructor; [exact IH|].
    rewrite insert_ranked_Permutation. constructor; [lia|done].
  - apply Z.ltb_ge in Hcmp. constructor; [by constructor|].
    constructor; [done|].
    eapply Forall_impl; [exact Hy|]. simpl. intros. lia.
Qed.

(** Ranking two lists that are related element by element, under keys that
    agree on related elements, gives related rankings. *)
Lemma insert_ranked_Forall2 {A B} (R : A → B → Prop)
    (keyA : A → Score) (keyB : B → Score) (x : A) (y : B) (l1 : list A) (l2 : list B) :
  (∀ a b, R a b → keyA a = keyB b) →
  R x y → Forall2 R l1 l2 →
  Forall2 R (insert_ranked keyA x l1) (insert_ranked keyB y l2).
Proof.
  intros Hkey Hxy. induction 1 as [|a b l1 l2 Hab Hl IH]; simpl.
  - by repeat constructor.
  - rewrite (Hkey _ _ Hxy), (Hkey _ _ Hab).
    destruct (keyB y <? keyB b); by repeat constructor.
Qed.

Lemma rank_descending_Forall2 {A B} (R : A → B → Prop)
    (keyA : A → Score) (keyB : B → Score) (l1 : list A) (l2 : list B) :
  (∀ a b, R a b → keyA a = keyB b) →
  Forall2 R l1 l2 →
  Forall2 R (rank_descending keyA l1) (rank_descending keyB l2).
Proof.
  intros Hkey. unfold rank_descending.
  induction 1 as [|a b l1 l2 Hab Hl IH]; simpl; [constructor|].
  by apply insert_ranked_Forall2.
Qed.

Lemma positions_Forall2 {A} (l : list A) :
  Forall2 (λ p x, l !! p = Some x) (seq 0 (length l)) l.
Proof.
  apply Forall2_same_length_lookup. split; [by rewrite length_seq|].
  intros i p x Hp Hx. apply lookup_seq in Hp as [-> _]. exact Hx.
Qed.

(** C5. For every query vector [v] and every [k >= 1], [search] returns
    the first [k] entries of a ranking of all ingestion positions that puts
    an entry more similar to [v] first and, among entries equally similar
    to [v], the one ingested earlier first; each result is the chunk at its
    position with the similarity of that chunk's vector to [v].  So there
    are at most [k] results, with scores that never increase; and when [k]
    is at least the size of the index they are exactly all the entries. *)
Theorem search_ordering (similarity : Vector → Vector → Score)
    (index : IndexHandle) (query_vector : Vector) (k : Z) :
  1 ≤ k →
  ∃ (results : list (Chunk * Score)) (ranking : list nat),
    search similarity index query_vector k = inr results
    ∧ ranking ≡ₚ seq 0 (length index)
    ∧ StronglySorted
        (ranks_before
           (λ p, from_option (λ entry : Entry, similarity query_vector entry.2) 0
                             (index !! p)))
        ranking
    ∧ Forall2 (λ p r, ∃ vector, index !! p = Some (r.1, vector)
                                ∧ r.2 = similarity query_vector vector)
              (take (Z.to_nat k) ranking) results
    ∧ (length results ≤ Z.to_nat k)%nat
    ∧ StronglySorted (λ a b, b.2 ≤ a.2) results
    ∧ ((length index ≤ Z.to_nat k)%nat →
       results ≡ₚ (λ entry : Entry, (entry.1, similarity query_vector entry.2)) <$> index
       ∧ length results = length index).
Proof.
  intros Hk.
  set (key := λ p : nat,
         from_option (λ entry : Entry, similarity query_vector entry.2) 0 (index !! p)).
  set (scores := scored similarity index query_vector).
  assert (length scores = length index) as Hlen
    by (unfold scores, scored; apply length_map).
  exists (take (Z.to_nat k) (rank_descending snd scores)),
         (rank_descending key (seq 0 (length index))).
  split; [|split; [|split; [|split; [|split; [|split]]]]].
  - unfold search. fold scores. destruct (k <? 1) eqn:Hlt; [|reflexivity].
    apply Z.ltb_lt in Hlt. lia.
  - apply rank_descending_Permutation.
  - apply rank_seq_sorted.
  - apply Forall2_take.
    apply (rank_descending_Forall2
             (λ p r, ∃ vector, index !! p = Some (r.1, vector)
                               ∧ r.2 = similarity query_vector vector) key snd).
    + intros p r (vector & Hp & Hscore). unfold key.
      etransitivity;
        [exact (f_equal (from_option
                           (λ entry : Entry, similarity query_vector entry.2) 0) Hp)|].
      simpl. by rewrite Hscore.
    + apply Forall2_same_length_lookup. split; [by rewrite length_seq|].
      intros i p r Hp Hr. apply lookup_seq in Hp as [-> _].
      unfold scores, scored in Hr.
      change (map ?f index) with (f <$> index) in Hr.
      rewrite list_lookup_fmap in Hr.
      apply fmap_Some in Hr as ([chunk vector] & Hi & ->).
      exists vector. split; [exact Hi|reflexivity].
  - rewrite length_take. lia.
  - pose proof (rank_descending_sorted snd scores) as Hsorted.
    rewrite <- (take_drop (Z.to_nat k) (rank_descending snd scores)) in Hsorted.
    by apply StronglySorted_app_1_l in Hsorted.
  - intros Hall.
    rewrite take_ge by (rewrite rank_descending_length; lia).
    split; [apply rank_descending_Permutation|].
    by rewrite rank_descending_length.
Qed.

Example search_sample :
  search inner_product sample_index [1; 0] 2
  = inr [ (sample_chunk "b" 1, 2); (sample_chunk "a" 0, 1) ].
Proof. reflexivity. Qed.

(** With another query vector the same index ranks the other way. *)
Example search_sample_other_query :
  search inner_product sample_index [0; 1] 2
  = inr [ (sample_chunk "c" 2, 5); (sample_chunk "a" 0, 0) ].
Proof. reflexivity. Qed.

Lemma search_ordering_witness :
  ∃ (results : list (Chunk * Score)) (ranking : list nat),
    search inner_product sample_index [1; 0] 2 = inr results
    ∧ ranking ≡ₚ seq 0 (length sample_index)
    ∧ StronglySorted
        (ranks_before
           (λ p, from_option (λ entry : Entry, inner_product [1; 0] entry.2) 0
                             (sample_index !! p)))
        ranking
    ∧ Forall2 (λ p r, ∃ vector, sample_index !! p = Some (r.1, vector)
                                ∧ r.2 = inner_product [1; 0] vector)
              (take (Z.to_nat 2) ranking) results
    ∧ (length results ≤ Z.to_nat 2)%nat
    ∧ StronglySorted (λ a b, b.2 ≤ a.2) results
    ∧ ((length sample_index ≤ Z.to_nat 2)%nat →
       results ≡ₚ (λ entry : Entry, (entry.1, inner_product [1; 0] entry.2))
                  <$> sample_index
       ∧ length results = length sample_index).
Proof.
  apply (search_ordering inner_product sample_index [1; 0] 2). lia.
Defined.

(** [k] below 1 is refused. *)
Lemma search_invalid_k (similarity : Vector → Vector → Score)
    (index : IndexHandle) (query_vector : Vector) (k : Z) :
  k < 1 → search similarity index query_vector k = inl InvalidK.
Proof.
  intros Hk. unfold search. by rewrite (proj2 (Z.ltb_lt k 1) Hk).
Qed.

End DocumentStoreFacts.

(** * Theorems about the ingestion pipeline *)

Module IngestionFacts.
Import DocumentStore Ingestion.

Section Facts.

Context {P : Type}.
Variable policy : SplitPolicy.
Variable embed : P → string → outcome Vector * P.

(** [r'] continues [r] without touching the current generation: the disk
    states it adds all show the generation that was current in [r]. *)
Definition continues (r r' : Run P) : Prop :=
  current (disk r') = current (disk r)
  ∧ ∃ new, observed r' = observed r ++ new
           ∧ Forall (λ s, current s = current (disk r)) new.

Lemma continues_refl (r : Run P) : continues r r.
Proof. split; [done|]. exists []. by rewrite app_nil_r. Qed.

Lemma continues_trans (r1 r2 r3 : Run P) :
  continues r1 r2 → continues r2 r3 → continues r1 r3.
Proof.
  intros [Hc12 (n12 & Ho12 & Hf12)] [Hc23 (n23 & Ho23 & Hf23)].
  split; [congruence|]. exists (n12 ++ n23).
  split; [by rewrite Ho23, Ho12, app_assoc|].
  apply Forall_app. split; [done|].
  eapply Forall_impl; [exact Hf23|]. simpl. congruence.
Qed.

Lemma continues_write (f : Store → Store) (r : Run P) :
  (∀ d, current (f d) = current d) → continues r (write f r).
Proof.
  intros Hf. split; [apply Hf|]. exists [f (disk r)].
  split; [done|]. repeat constructor. apply Hf.
Qed.

Lemma continues_with_provider (p : P) (r : Run P) : continues r (with_provider p r).
Proof. split; [done|]. exists []. by rewrite app_nil_r. Qed.

Lemma embed_chunks_continues (chunks : list Chunk) (r : Run P) :
  continues r (embed_chunks embed chunks r).2.
Proof.
  revert r. induction chunks as [|c rest IH]; intros r; simpl.
  - apply continues_refl.
  - destruct (embed (provider r) (text c)) as [[v|e] p]; simpl.
    + eapply continues_trans; [|apply IH].
      eapply continues_trans; [apply (continues_with_provider p)|].
      by apply continues_write.
    + apply continues_with_provider.
Qed.

Lemma ingest_file_continues (folder_path : string) (acc : IndexBuildReport * Run P)
    (file : string * string) :
  continues acc.2 (ingest_file policy embed folder_path acc file).2.
Proof.
  unfold ingest_file.
  pose proof (embed_chunks_continues
                (chunks_of policy (document_of folder_path file)) acc.2) as H.
  destruct (embed_chunks embed _ acc.2) as [[reason|] r]; simpl in *; [|done].
  eapply continues_trans; [exact H|]. by apply continues_write.
Qed.

Lemma ingest_files_continues (folder_path : string) (files : list (string * string))
    (acc : IndexBuildReport * Run P) :
  continues acc.2 (foldl (ingest_file policy embed folder_path) acc files).2.
Proof.
  revert acc. induction files as [|file files IH]; intros acc; simpl.
  - apply continues_refl.
  - eapply continues_trans; [apply ingest_file_continues|apply IH].
Qed.

(** What is staged, and whether a file fails, does not depend on the
    provider's state when the provider is deterministic. *)
Lemma embed_chunks_deterministic (chunks : list Chunk) (ra rb : Run P) :
  deterministic embed →
  staging (disk ra) = staging (disk rb) →
  (embed_chunks embed chunks ra).1 = (embed_chunks embed chunks rb).1
  ∧ staging (disk (embed_chunks embed chunks ra).2)
    = staging (disk (embed_chunks embed chunks rb).2).
Proof.
  intros Hdet. revert ra rb.
  induction chunks as [|c rest IH]; intros ra rb Hst; simpl; [done|].
  pose proof (Hdet (provider ra) (provider rb) (text c)) as Hsame.
  destruct (embed (provider ra) (text c)) as [oa pa],
           (embed (provider rb) (text c)) as [ob pb].
  simpl in Hsame. subst ob. destruct oa as [v|e]; simpl; [|done].
  apply IH. simpl. by rewrite Hst.
Qed.

Lemma ingest_file_deterministic (folder_path : string) (file : string * string)
    (acca accb : IndexBuildReport * Run P) :
  deterministic embed →
  acca.1 = accb.1 →
  staging (disk acca.2) = staging (disk accb.2) →
  (ingest_file policy embed folder_path acca file).1
  = (ingest_file policy embed folder_path accb file).1
  ∧ staging (disk (ingest_file policy embed folder_path acca file).2)
    = staging (disk (ingest_file policy embed folder_path accb file).2).
Proof.
  intros Hdet Hrep Hst. unfold ingest_file.
  destruct (embed_chunks_deterministic
              (chunks_of policy (document_of folder_path file)) acca.2 accb.2 Hdet Hst)
    as [Hres Hstaged].
  destruct (embed_chunks embed _ acca.2) as [resa ra],
           (embed_chunks embed _ accb.2) as [resb rb].
  simpl in Hres, Hstaged. subst resb.
  destruct resa as [reason|]; simpl; rewrite Hrep; [|done].
  by rewrite Hst.
Qed.

Lemma ingest_files_deterministic (folder_path : string) (files : list (string * string))
    (acca accb : IndexBuildReport * Run P) :
  deterministic embed →
  acca.1 = accb.1 →
  staging (disk acca.2) = staging (disk accb.2) →
  (foldl (ingest_file policy embed folder_path) acca files).1
  = (foldl (ingest_file policy embed folder_path) accb files).1
  ∧ staging (disk (foldl (ingest_file policy embed folder_path) acca files).2)
    = staging (disk (foldl (ingest_file policy embed folder_path) accb files).2).
Proof.
  intros Hdet. revert acca accb.
  induction files as [|file files IH]; intros acca accb Hrep Hst; simpl; [done|].
  destruct (ingest_file_deterministic folder_path file acca accb Hdet Hrep Hst).
  by apply IH.
Qed.

(** The number of staged entries is the number of chunks the report counts. *)
Lemma embed_chunks_staged (chunks : list Chunk) (r : Run P) (r' : Run P) :
  embed_chunks embed chunks r = (None, r') →
  length (staging (disk r')) = (length (staging (disk r)) + length chunks)%nat.
Proof.
  revert r. induction chunks as [|c rest IH]; intros r; simpl.
  - intros [= <-]. lia.
  - destruct (embed (provider r) (text c)) as [[v|e] p]; [|discriminate].
    intros H. apply IH in H. rewrite H. simpl. rewrite length_app. simpl. lia.
Qed.

Lemma ingest_file_staged (folder_path : string) (acc : IndexBuildReport * Run P)
    (file : string * string) :
  length (staging (disk acc.2)) = chunks_created acc.1 →
  length (staging (disk (ingest_file policy embed folder_path acc file).2))
  = chunks_created (ingest_file policy embed folder_path acc file).1.
Proof.
  intros Hacc. unfold ingest_file.
  destruct (embed_chunks embed _ acc.2) as [[reason|] r] eqn:Hemb; simpl; [done|].
  apply embed_chunks_staged in Hemb. lia.
Qed.

Lemma ingest_files_staged (folder_path : string) (files : list (string * string))
    (acc : IndexBuildReport * Run P) :
  length (staging (disk acc.2)) = chunks_created acc.1 →
  length (staging (disk (foldl (ingest_file policy embed folder_path) acc files).2))
  = chunks_created (foldl (ingest_file policy embed folder_path) acc files).1.
Proof.
  revert acc. induction files as [|file files IH]; intros acc Hacc; simpl; [done|].
  by apply IH, ingest_file_staged.
Qed.

(** A run that returns a report leaves its disk in one of two ways. *)
Lemma ingest_inv (fs : FileSystem) (folder_path : string) (r r' : Run P)
    (report : IndexBuildReport) :
  ingest policy embed fs folder_path r = (inr report, r') →
  ∃ done : Run P,
    continues r done
    ∧ length (staging (disk done)) = chunks_created report
    ∧ ((failures report = [] ∧ r' = write commit done)
       ∨ (failures report ≠ [] ∧ r' = write (reset_staging []) done)).
Proof.
  unfold ingest. destruct (fs folder_path) as [files|]; [|discriminate].
  set (started := write (reset_staging []) r).
  set (eligible_files := filter (λ file, eligible file.1 = true) files).
  pose proof (ingest_files_continues folder_path eligible_files (empty_report, started))
    as Hcont.
  pose proof (ingest_files_staged folder_path eligible_files (empty_report, started)
                eq_refl) as Hstaged.
  destruct (foldl _ (empty_report, started) eligible_files) as [rep done].
  simpl in *. intros Hret.
  assert (continues r done) as Hdone.
  { eapply continues_trans; [|exact Hcont]. by apply continues_write. }
  destruct (failures rep) eqn:Hf; injection Hret as <- <-;
    exists done; (split; [exact Hdone|]); (split; [exact Hstaged|]).
  - by left.
  - right. by rewrite Hf.
Qed.

(** Whenever [ingest] returns a report, every state the disk went through
    shows readers either the generation that was current before the run or,
    as the last state of a run without failures, the whole new generation
    with its aligned manifest.  If the report lists a failure, nothing was
    committed: the current index and manifest are the ones from before the
    run, in the final state and in every state in between. *)
Lemma ingest_never_exposes_partial_index (fs : FileSystem) (folder_path : string)
    (r r' : Run P) (report : IndexBuildReport) :
  ingest policy embed fs folder_path r = (inr report, r') →
  ∃ new : list Store,
    observed r' = observed r ++ new
    ∧ Forall (λ s, current s = current (disk r)
                   ∨ (failures report = [] ∧ s = disk r'
                      ∧ ∃ entries, current s = Some (generation_of entries)
                                   ∧ length entries = chunks_created report)) new
    ∧ (failures report ≠ [] →
       current (disk r') = current (disk r)
       ∧ load (disk r') = load (disk r)
       ∧ Forall (λ s, current s = current (disk r)) new).
Proof.
  intros Hret.
  destruct (ingest_inv fs folder_path r r' report Hret)
    as (done & [Hcur (mid & Hobs & Hmid)] & Hlen & [[Hnone ->]|[Hsome ->]]).
  - exists (mid ++ [commit (disk done)]). simpl.
    split; [by rewrite Hobs, app_assoc|].
    split; [|done].
    apply Forall_app. split.
    + eapply Forall_impl; [exact Hmid|]. simpl. by left.
    + apply Forall_singleton. right. split; [done|]. split; [done|].
      by exists (staging (disk done)).
  - exists (mid ++ [reset_staging [] (disk done)]). simpl.
    split; [by rewrite Hobs, app_assoc|].
    assert (Forall (λ s, current s = current (disk r))
                   (mid ++ [reset_staging [] (disk done)])) as Hall.
    { apply Forall_app. split; [done|]. by apply Forall_singleton. }
    split; [eapply Forall_impl; [exact Hall|]; simpl; by left|].
    intros _. split; [done|]. split; [|done].
    unfold load. simpl. by rewrite Hcur.
Qed.

(** C8. With a deterministic embedding provider, ingesting an unchanged
    folder a second time returns the same report (the same number of files
    and chunks, the same failures) and leaves the same current generation:
    the same chunks with the same embeddings, in the same order. *)
Theorem ingest_idempotent (fs : FileSystem) (folder_path : string)
    (r r1 : Run P) (report1 : IndexBuildReport) :
  deterministic embed →
  ingest policy embed fs folder_path r = (inr report1, r1) →
  ∃ (report2 : IndexBuildReport) (r2 : Run P),
    ingest policy embed fs folder_path r1 = (inr report2, r2)
    ∧ report2 = report1
    ∧ current (disk r2) = current (disk r1)
    ∧ load (disk r2) = load (disk r1).
Proof.
  intros Hdet Hrun1.
  assert (∃ report2 r2, ingest policy embed fs folder_path r1 = (inr report2, r2)
                        ∧ report2 = report1
                        ∧ current (disk r2) = current (disk r1)) as Hgoal.
  { revert Hrun1. unfold ingest.
    destruct (fs folder_path) as [files|]; [|discriminate].
    set (eligible_files := filter (λ file, eligible file.1 = true) files).
    destruct (ingest_files_deterministic folder_path eligible_files
                (empty_report, write (reset_staging []) r)
                (empty_report, write (reset_staging []) r1) Hdet eq_refl eq_refl)
      as [Hrep Hst].
    pose proof (ingest_files_continues folder_path eligible_files
                  (empty_report, write (reset_staging []) r1)) as [Hcur _].
    destruct (foldl _ (empty_report, write (reset_staging []) r) eligible_files)
      as [rep done1].
    destruct (foldl _ (empty_report, write (reset_staging []) r1) eligible_files)
      as [rep2 done2].
    simpl in *. subst rep2.
    destruct (failures rep) eqn:Hf; intros [= <- <-]; eexists _, _;
      (split; [reflexivity|]); (split; [reflexivity|]); simpl.
    - by rewrite Hst.
    - done. }
  destruct Hgoal as (report2 & r2 & Hrun2 & Hrep & Hcur).
  exists report2, r2. repeat split; try done. unfold load. by rewrite Hcur.
Qed.

End Facts.

(** The sample folder splits into three chunks, two for the log and one
    for the notes; the picture is not eligible. *)
Example ingest_sample :
  ∃ r', ingest sample_policy length_embed sample_fs sample_folder sample_start
        = (inr {| files_processed := 2; chunks_created := 3; failures := [] |}, r')
        ∧ (gen_index <$> current (disk r'))
          = Some [ ({| text := "CD drift observed on lot";
                       chunk_index := 0; parent_document_id := "lot1.log";
                       metadata := {[ "source" := "lot1.log";
                                      "filename" := "lot1.log" ]} |}, [24]);
                   ({| text := " lot L1234 at step 12";
                       chunk_index := 1; parent_document_id := "lot1.log";
                       metadata := {[ "source" := "lot1.log";
                                      "filename" := "lot1.log" ]} |}, [21]);
                   ({| text := "etch rate nominal";
                       chunk_index := 0; parent_document_id := "notes.md";
                       metadata := {[ "source" := "notes.md";
                                      "filename" := "notes.md" ]} |}, [17]) ].
Proof. eexists. split; vm_compute; reflexivity. Qed.

(** ** A failed embedding reaches the report *)

Section Logged.

Context {P : Type}.
Variable policy : SplitPolicy.
Variable embed : P → string → outcome Vector * P.

Lemma any_raised_app (l1 l2 : call_log) :
  any_raised (l1 ++ l2) = any_raised l1 || any_raised l2.
Proof. apply existsb_app. Qed.

Lemma logging_eq (state : P * call_log) (t : string) :
  logging embed state t
  = ((embed state.1 t).1, ((embed state.1 t).2, state.2 ++ [(t, (embed state.1 t).1)])).
Proof. unfold logging. by destruct (embed state.1 t). Qed.

(** The chunks of a file: the calls made are recorded, and the file fails
    exactly when one of them raised. *)
Lemma embed_chunks_logged (chunks : list Chunk) (r : Run (P * call_log)) :
  ∃ made : call_log,
    (provider (embed_chunks (logging embed) chunks r).2).2 = (provider r).2 ++ made
    ∧ ((embed_chunks (logging embed) chunks r).1 = None ↔ any_raised made = false).
Proof.
  revert r. induction chunks as [|c rest IH]; intros r; simpl.
  - exists []. by rewrite app_nil_r.
  - rewrite (logging_eq (provider r) (text c)).
    destruct (embed (provider r).1 (text c)) as [[v|e] p]; simpl.
    + destruct (IH (write (stage (c, v))
                      (with_provider (p, (provider r).2 ++ [(text c, Returns v)]) r)))
        as (made & Hlog & Hnone).
      exists ((text c, Returns v) :: made). split.
      * etransitivity; [exact Hlog|]. simpl. by rewrite <- app_assoc.
      * exact Hnone.
    + exists [(text c, Raises e)]. simpl. split; [done|]. by split.
Qed.

Lemma ingest_file_logged (folder_path : string)
    (acc : IndexBuildReport * Run (P * call_log)) (file : string * string) :
  ∃ made : call_log,
    (provider (ingest_file policy (logging embed) folder_path acc file).2).2
    = (provider acc.2).2 ++ made
    ∧ (failures (ingest_file policy (logging embed) folder_path acc file).1 = []
       ↔ failures acc.1 = [] ∧ any_raised made = false).
Proof.
  unfold ingest_file.
  destruct (embed_chunks_logged
              (chunks_of policy (document_of folder_path file)) acc.2)
    as (made & Hlog & Hnone).
  exists made.
  destruct (embed_chunks (logging embed) _ acc.2) as [[reason|] r]; simpl in *.
  - split; [done|]. split.
    + intros Hnil. by apply app_eq_nil in Hnil as [_ ?].
    + intros [_ Hquiet]. apply Hnone in Hquiet. discriminate Hquiet.
  - split; [done|]. split.
    + intros Hnil. split; [done|]. by apply Hnone.
    + by intros [? _].
Qed.

Lemma ingest_files_logged (folder_path : string) (files : list (string * string))
    (acc : IndexBuildReport * Run (P * call_log)) :
  ∃ made : call_log,
    (provider (foldl (ingest_file policy (logging embed) folder_path) acc files).2).2
    = (provider acc.2).2 ++ made
    ∧ (failures (foldl (ingest_file policy (logging embed) folder_path) acc files).1 = []
       ↔ failures acc.1 = [] ∧ any_raised made = false).
Proof.
  revert acc. induction files as [|file files IH]; intros acc; simpl.
  - exists []. rewrite app_nil_r. split; [done|]. simpl.
    split; [by intros ?|by intros [? _]].
  - destruct (ingest_file_logged folder_path acc file) as (made1 & Hlog1 & Hnil1).
    destruct (IH (ingest_file policy (logging embed) folder_path acc file))
      as (made2 & Hlog2 & Hnil2).
    exists (made1 ++ made2). split.
    + by rewrite Hlog2, Hlog1, app_assoc.
    + rewrite Hnil2, Hnil1, any_raised_app, orb_false_iff. tauto.
Qed.

(** A run reports a failure exactly when a call to the provider made
    during the run raised. *)
Lemma ingest_reports_raised (fs : FileSystem) (folder_path : string)
    (r r' : Run (P * call_log)) (report : IndexBuildReport) :
  ingest policy (logging embed) fs folder_path r = (inr report, r') →
  ∃ made : call_log,
    (provider r').2 = (provider r).2 ++ made
    ∧ (failures report = [] ↔ any_raised made = false).
Proof.
  unfold ingest. destruct (fs folder_path) as [files|]; [|discriminate].
  destruct (ingest_files_logged folder_path
              (filter (λ file, eligible file.1 = true) files)
              (empty_report, write (reset_staging []) r)) as (made & Hlog & Hnil).
  destruct (foldl _ _ _) as [rep done]. simpl in *.
  intros Hret. exists made.
  destruct (failures rep) eqn:Hf; injection Hret as <- <-; simpl;
    (split; [exact Hlog|]); rewrite Hf; intuition congruence.
Qed.

(** C7. If the embedding of any chunk fails during [ingest] -- some call
    to the provider made during the run raises -- the run reports the
    failure and commits nothing: the current index and manifest, and what a
    reader loads, are the ones from before the run, in the final state of
    the disk and in every state it went through in between; the new
    generation was only ever staged. *)
Theorem failed_embedding_keeps_previous_index (fs : FileSystem) (folder_path : string)
    (r r' : Run (P * call_log)) (report : IndexBuildReport) :
  ingest policy (logging embed) fs folder_path r = (inr report, r') →
  (provider r).2 = [] →
  any_raised (provider r').2 = true →
  failures report ≠ []
  ∧ current (disk r') = current (disk r)
  ∧ load (disk r') = load (disk r)
  ∧ ∃ new : list Store,
      observed r' = observed r ++ new
      ∧ Forall (λ s, current s = current (disk r) ∧ load s = load (disk r)) new.
Proof.
  intros Hrun Hfresh Hraised.
  destruct (ingest_reports_raised fs folder_path r r' report Hrun)
    as (made & Hlog & Hnil).
  rewrite Hfresh in Hlog. simpl in Hlog. rewrite Hlog in Hraised.
  assert (failures report ≠ []) as Hfailed.
  { intros Hnone. apply Hnil in Hnone. congruence. }
  destruct (ingest_never_exposes_partial_index policy (logging embed) fs folder_path
              r r' report Hrun) as (new & Hobs & _ & Hkept).
  destruct (Hkept Hfailed) as (Hcur & Hload & Hall).
  split; [done|]. split; [done|]. split; [done|].
  exists new. split; [done|].
  eapply Forall_impl; [exact Hall|]. simpl. intros s Hs.
  split; [done|]. unfold load. by rewrite Hs.
Qed.

End Logged.

Lemma failed_embedding_keeps_previous_index_witness :
  ∃ (report : IndexBuildReport) (r' : Run (nat * call_log)),
    ingest sample_policy (logging flaky_embed) sample_fs sample_folder
           sample_start_logged
    = (inr report, r')
    ∧ (provider r').2
      = [ ("CD drift observed on lot", Returns [24]);
          (" lot L1234 at step 12",
           Raises (Exc (Exception "TimeoutError" "embedding timed out")));
          ("etch rate nominal", Returns [17]) ]
    ∧ failures report ≠ []
    ∧ current (disk r') = Some previous_generation
    ∧ load (disk r') = load (disk sample_start_logged)
    ∧ Forall (λ s, current s = Some previous_generation) (observed r').
Proof.
  destruct (ingest sample_policy (logging flaky_embed) sample_fs sample_folder
              sample_start_logged)
    as [[err|report] r'] eqn:Hrun; [vm_compute in Hrun; discriminate|].
  assert ((provider r').2
          = [ ("CD drift observed on lot", Returns [24]);
              (" lot L1234 at step 12",
               Raises (Exc (Exception "TimeoutError" "embedding timed out")));
              ("etch rate nominal", Returns [17]) ]) as Hcalls.
  { vm_compute in Hrun. injection Hrun as _ <-. reflexivity. }
  destruct (failed_embedding_keeps_previous_index sample_policy flaky_embed sample_fs
              sample_folder sample_start_logged r' report Hrun eq_refl)
    as (Hfailed & Hcur & Hload & new & Hobs & Hall); [by rewrite Hcalls|].
  exists report, r'. repeat split; try done.
  rewrite Hobs. simpl. eapply Forall_impl; [exact Hall|]. simpl. by intros s [? _].
Defined.

Lemma length_embed_deterministic : deterministic length_embed.
Proof. intros p p' t. reflexivity. Qed.

Lemma ingest_idempotent_witness :
  ∃ (report1 report2 : IndexBuildReport) (r1 r2 : Run nat),
    ingest sample_policy length_embed sample_fs sample_folder sample_start
    = (inr report1, r1)
    ∧ ingest sample_policy length_embed sample_fs sample_folder r1 = (inr report2, r2)
    ∧ chunks_created report1 = 3%nat
    ∧ report2 = report1
    ∧ current (disk r2) = current (disk r1)
    ∧ load (disk r2) = load (disk r1).
Proof.
  destruct (ingest sample_policy length_embed sample_fs sample_folder sample_start)
    as [[err|report1] r1] eqn:Hrun; [vm_compute in Hrun; discriminate|].
  assert (chunks_created report1 = 3%nat) as Hcount.
  { vm_compute in Hrun. injection Hrun as <- _. reflexivity. }
  destruct (ingest_idempotent sample_policy length_embed sample_fs sample_folder
              sample_start r1 report1 length_embed_deterministic Hrun)
    as (report2 & r2 & Hrun2 & Hrep & Hcur & Hload).
  by exists report1, report2, r1, r2.
Defined.

(** A provider whose vectors depend on its state breaks idempotence: the
    second run stores other embeddings. *)
Example ingest_twice_counting_embed :
  ¬ deterministic counting_embed
  ∧ ∃ report1 r1 report2 r2,
      ingest sample_policy counting_embed sample_fs sample_folder sample_start
      = (inr report1, r1)
      ∧ ingest sample_policy counting_embed sample_fs sample_folder r1
        = (inr report2, r2)
      ∧ current (disk r2) ≠ current (disk r1).
Proof.
  split.
  - intros Hdet. specialize (Hdet 0%nat 1%nat ""). discriminate Hdet.
  - eexists _, _, _, _.
    split; [vm_compute; reflexivity|].
    split; [vm_compute; reflexivity|].
    vm_compute. discriminate.
Qed.

(** Chunks are never longer than the policy allows. *)
Lemma split_chars_bounded (fuel : nat) (policy : SplitPolicy) (chars : list Ascii.ascii) :
  Forall (λ piece, (length piece ≤ max_chunk_length policy)%nat)
         (split_chars fuel policy chars).
Proof.
  revert chars. induction fuel as [|fuel IH]; intros chars; simpl; [constructor|].
  destruct chars as [|c chars]; [constructor|].
  constructor; [rewrite length_take; lia|].
  case_match; [constructor|apply IH].
Qed.

End IngestionFacts.

(** * Further properties of the orchestrator *)

Module OrchestratorFacts.
Import AppStreamlit.

(** X1. The collaborator calls of a run of [get_retrieval_chain] are always
    an initial segment of: the embedding model
    ["sentence-transformers/all-MiniLM-L6-v2"], [FAISS.load_local] on the
    given path with [allow_dangerous_deserialization=True],
    [OpenAI(temperature=0)], [as_retriever] with [k = 3] -- in this order.
    In particular [RetrievalQA.from_chain_type] is never called. *)
Theorem get_retrieval_chain_calls_in_order (W : World) (p : string) :
  (run (get_retrieval_chain W p)).2
  `prefix_of` [ EvHuggingFaceEmbeddings "sentence-transformers/all-MiniLM-L6-v2";
                EvFAISS_load_local p true;
                EvOpenAI (PyInt 0);
                EvAsRetriever {[ "k" := 3 ]} ].
Proof.
  destruct (os_path_exists W p) eqn:Hex.
  - rewrite (get_retrieval_chain_present W p Hex).
    repeat case_match; simpl; eexists; simpl; reflexivity.
  - rewrite (get_retrieval_chain_missing W p Hex). apply prefix_nil.
Qed.

(** X2. When the index exists but loading it raises, that exception
    reaches the caller of [get_retrieval_chain] unchanged, and the run stops
    there: neither the OpenAI client nor a retriever is asked for. *)
Theorem get_retrieval_chain_surfaces_load_failure
    (W : World) (p : string) (embeddings : Embeddings W) (r : raised) :
  os_path_exists W p = true →
  HuggingFaceEmbeddings W embedding_model_name = Returns embeddings →
  FAISS_load_local W p embeddings true = Raises r →
  run (get_retrieval_chain W p)
  = (Fail (Propagated r),
     [EvHuggingFaceEmbeddings embedding_model_name; EvFAISS_load_local p true]).
Proof.
  intros Hex Hemb Hload.
  by rewrite (get_retrieval_chain_present W p Hex), Hemb, Hload.
Qed.

Lemma get_retrieval_chain_surfaces_load_failure_witness :
  run (get_retrieval_chain unreadable_index_world default_vectorstore_path)
  = (Fail (Propagated (Exc (Exception "RuntimeError" "could not open index.faiss"))),
     [EvHuggingFaceEmbeddings embedding_model_name;
      EvFAISS_load_local default_vectorstore_path true]).
Proof.
  exact (get_retrieval_chain_surfaces_load_failure unreadable_index_world
           default_vectorstore_path
           {| se_model_name := embedding_model_name; se_dimension := 384 |}
           (Exc (Exception "RuntimeError" "could not open index.faiss"))
           eq_refl eq_refl eq_refl).
Defined.

(** The shape of [get_agent]'s runs, continuing any trace. *)
Lemma get_agent_from (W : World) (t : trace) :
  get_agent W t
  = match ConversationBufferMemory W "chat_history" true with
    | Raises r => (Fail (Propagated r),
                   t ++ [EvConversationBufferMemory "chat_history" true])
    | Returns _ =>
      match PromptTemplate W template ["question"] with
      | Raises r => (Fail (Propagated r),
                     (t ++ [EvConversationBufferMemory "chat_history" true])
                       ++ [EvPromptTemplate template ["question"]])
      | Returns prompt =>
        match OpenAI W (PyFloat 3 (-1)) with
        | Raises r => (Fail (Propagated r),
                       ((t ++ [EvConversationBufferMemory "chat_history" true])
                          ++ [EvPromptTemplate template ["question"]])
                         ++ [EvOpenAI (PyFloat 3 (-1))])
        | Returns llm => (Ok (agent_response W prompt llm),
                          ((t ++ [EvConversationBufferMemory "chat_history" true])
                             ++ [EvPromptTemplate template ["question"]])
                            ++ [EvOpenAI (PyFloat 3 (-1))])
        end
      end
    end.
Proof.
  unfold get_agent. resolve_globals. unfold bind, call, ret.
  destruct (ConversationBufferMemory W "chat_history" true); [|reflexivity].
  resolve_globals.
  destruct (PromptTemplate W template ["question"]); [|reflexivity].
  resolve_globals.
  destruct (OpenAI W (PyFloat 3 (-1))); reflexivity.
Qed.

(** X3. [get_agent] returns a closure exactly when the memory, the prompt
    template and the OpenAI client (temperature 0.3) can all be
    constructed; the closure is [agent_response] over that prompt and
    client. *)
Theorem get_agent_returns_iff (W : World) (f : string → result string) :
  (run (get_agent W)).1 = Ok f
  ↔ ∃ memory prompt llm,
      ConversationBufferMemory W "chat_history" true = Returns memory
      ∧ PromptTemplate W template ["question"] = Returns prompt
      ∧ OpenAI W (PyFloat 3 (-1)) = Returns llm
      ∧ f = agent_response W prompt llm.
Proof.
  unfold run. rewrite get_agent_from. split.
  - destruct (ConversationBufferMemory W "chat_history" true) as [memory|];
      [|discriminate].
    destruct (PromptTemplate W template ["question"]) as [prompt|]; [|discriminate].
    destruct (OpenAI W (PyFloat 3 (-1))) as [llm|]; [|discriminate].
    simpl. intros [= <-]. by exists memory, prompt, llm.
  - intros (memory & prompt & llm & -> & -> & -> & ->). reflexivity.
Qed.

(** X4. [get_agent] raises nothing of its own.  A failing run ends with
    the exception of the first constructor that raised, unchanged, and no
    constructor is called after it: the memory first, then the prompt
    template, then the OpenAI client with temperature 0.3. *)
Theorem get_agent_failures_are_propagated (W : World) :
  (∀ e, (run (get_agent W)).1 ≠ Fail (Own e))
  ∧ (∀ r, ConversationBufferMemory W "chat_history" true = Raises r →
          run (get_agent W)
          = (Fail (Propagated r), [EvConversationBufferMemory "chat_history" true]))
  ∧ (∀ memory r,
       ConversationBufferMemory W "chat_history" true = Returns memory →
       PromptTemplate W template ["question"] = Raises r →
       run (get_agent W)
       = (Fail (Propagated r),
          [ EvConversationBufferMemory "chat_history" true;
            EvPromptTemplate template ["question"] ]))
  ∧ (∀ memory prompt r,
       ConversationBufferMemory W "chat_history" true = Returns memory →
       PromptTemplate W template ["question"] = Returns prompt →
       OpenAI W (PyFloat 3 (-1)) = Raises r →
       run (get_agent W)
       = (Fail (Propagated r),
          [ EvConversationBufferMemory "chat_history" true;
            EvPromptTemplate template ["question"];
            EvOpenAI (PyFloat 3 (-1)) ])).
Proof.
  unfold run. rewrite get_agent_from.
  split; [|split; [|split]].
  - intros e. repeat case_match; discriminate.
  - by intros r ->.
  - by intros memory r -> ->.
  - by intros memory prompt r -> -> ->.
Qed.

(** Without an OpenAI key the client cannot be built: the memory and the
    prompt template were, and the client's exception is what the caller
    gets. *)
Example get_agent_no_key :
  run (get_agent no_key_world)
  = (Fail (Propagated (Exc (Exception "ValidationError" "Did not find openai_api_key"))),
     [ EvConversationBufferMemory "chat_history" true;
       EvPromptTemplate template ["question"];
       EvOpenAI (PyFloat 3 (-1)) ]).
Proof. reflexivity. Qed.

(** X5. [agent_response] never raises an [Exception]: for every question it
    either returns a string or lets through an exception that is not an
    [Exception], and the latter only when formatting the prompt or calling
    the model raised exactly that. *)
Theorem agent_response_never_raises_Exception
    (W : World) (prompt : Prompt W) (llm : LLM W) (question : string) :
  (∃ text, agent_response W prompt llm question = Ok text)
  ∨ (∃ cls,
       agent_response W prompt llm question = Fail (Propagated (BaseExc cls))
       ∧ outcome_bind (prompt_format W prompt {[ "question" := question ]})
                      (llm_call W llm) = Raises (BaseExc cls)).
Proof.
  unfold agent_response.
  destruct (outcome_bind _ _) as [answer|[e|cls]]; eauto.
Qed.

(** X6. [analyze_vm_data] returns a dict exactly when [compute_stats]
    returns on the list and [simple_rule_check] returns on each of its
    values with threshold 0.005. *)
Theorem analyze_vm_data_returns_iff (W : World) (data_list : list number) :
  (∃ d, analyze_vm_data W data_list = Ok d)
  ↔ (∃ stats, compute_stats W data_list = Returns stats)
    ∧ Forall (λ val, ∃ flag, simple_rule_check W val (PyFloat 5 (-3)) = Returns flag)
             data_list.
Proof.
  split.
  - intros [d Hd]. apply analyze_vm_data_inv in Hd as (stats & flags & Hs & Hf & _).
    split; [by exists stats|].
    apply Forall_forall. intros val Hval.
    apply list_elem_of_lookup in Hval as [i Hi].
    destruct (Forall2_lookup_l _ _ _ _ _ Hf Hi) as (flag & _ & Hflag).
    by exists flag.
  - intros [[stats Hs] Hall].
    assert (∃ flags, Forall2 (λ val flag,
              simple_rule_check W val (PyFloat 5 (-3)) = Returns flag) data_list flags)
      as [flags Hflags].
    { clear Hs. induction Hall as [|val l Hval _ IH].
      - exists []. constructor.
      - destruct Hval as [flag Hflag], IH as [flags IH].
        exists (flag :: flags). by constructor. }
    apply comprehension_Returns in Hflags.
    unfold analyze_vm_data, rule_threshold. rewrite Hs, Hflags. by eexists.
Qed.

(** X7. When [compute_stats] returns but [simple_rule_check] raises on some
    value, [analyze_vm_data] raises what the check raised on the first such
    value; no dict is returned. *)
Theorem analyze_vm_data_first_rule_failure (W : World)
    (before after : list number) (val : number)
    (stats : Stats W) (flags : list (RuleFlag W)) (r : raised) :
  compute_stats W (before ++ val :: after) = Returns stats →
  Forall2 (λ v flag, simple_rule_check W v (PyFloat 5 (-3)) = Returns flag)
          before flags →
  simple_rule_check W val (PyFloat 5 (-3)) = Raises r →
  analyze_vm_data W (before ++ val :: after) = Fail (Propagated r).
Proof.
  intros Hstats Hbefore Hval. unfold analyze_vm_data, rule_threshold.
  rewrite Hstats.
  by rewrite (comprehension_Raises _ before after val flags r Hbefore Hval).
Qed.

Lemma analyze_vm_data_first_rule_failure_witness :
  analyze_vm_data strict_tools_world [PyInt 1; PyInt (-2); PyInt (-3)]
  = Fail (Propagated (Exc (Exception "ValueError" "negative measurement"))).
Proof.
  apply (analyze_vm_data_first_rule_failure strict_tools_world
           [PyInt 1] [PyInt (-3)] (PyInt (-2)) 3%nat [true]
           (Exc (Exception "ValueError" "negative measurement")) eq_refl).
  - repeat constructor.
  - reflexivity.
Defined.

End OrchestratorFacts.

(** * Properties of the Streamlit front end *)

Module AppStreamlitFacts.
Import AppStreamlit.

(** ** The loader *)

(** The chain handle is never set. *)
Lemma loader_has_no_chain (W : World) : qa_chain (load_rag_and_agent W) = None.
Proof.
  unfold load_rag_and_agent.
  pose proof (get_retrieval_chain_never_returns W default_vectorstore_path) as Hnever.
  unfold run in Hnever.
  destruct (get_retrieval_chain W default_vectorstore_path []) as [[chain|f] t1];
    [discriminate|].
  destruct (caught f) as [e|]; [|done].
  destruct (get_agent W t1) as [[g|f'] t2]; [done|].
  by destruct (caught f').
Qed.

(** X8. The loader never obtains a retrieval chain: [qa_chain] is [None]
    for every world, and unless an exception that is not an [Exception]
    escapes, the first sidebar message is the error
    ["Failed to init retrieval chain: ..."]. *)
Theorem load_rag_and_agent_never_has_chain (W : World) :
  qa_chain (load_rag_and_agent W) = None
  ∧ (escaped (load_rag_and_agent W) = None →
     ∃ msg, head (sidebar (load_rag_and_agent W))
            = Some (SidebarError ("Failed to init retrieval chain: " +:+ msg))).
Proof.
  unfold load_rag_and_agent.
  pose proof (get_retrieval_chain_never_returns W default_vectorstore_path) as Hnever.
  unfold run in Hnever.
  destruct (get_retrieval_chain W default_vectorstore_path []) as [[chain|f] t1];
    [discriminate|].
  destruct (caught f) as [e|]; [|split; [done|discriminate]].
  destruct (get_agent W t1) as [[g|f'] t2]; [by eauto|].
  destruct (caught f'); simpl; [by eauto|]. split; [done|discriminate].
Qed.

(** X9. Pressing "Ask Agent" never runs a retrieval: whenever the script
    gets as far as the handler, all it shows, for any query and any
    settings, is the warning that no query was entered or the chain is not
    initialized. *)
Theorem ask_script_only_warns (W : World) (api : ChainApi (Chain W))
    (query : string) (show_sources_checkbox : bool) (max_sources : nat) (s : shown) :
  ask_script W api query show_sources_checkbox max_sources = Some s →
  s = {| events := [StWarning no_query_warning]; uncaught := None |}.
Proof.
  unfold ask_script.
  destruct (escaped (load_rag_and_agent W)); [discriminate|].
  rewrite loader_has_no_chain. by intros [= <-].
Qed.

Lemma ask_script_only_warns_witness :
  ask_script healthy_world answering_api "Why did lot L1234 show CD drift?" true 5
  = Some {| events := [StWarning no_query_warning]; uncaught := None |}.
Proof.
  destruct (ask_script healthy_world answering_api
              "Why did lot L1234 show CD drift?" true 5) as [s|] eqn:Hs.
  - f_equal. exact (ask_script_only_warns healthy_world answering_api
                      "Why did lot L1234 show CD drift?" true 5 s Hs).
  - vm_compute in Hs. discriminate Hs.
Defined.

(** ** The handler, given a chain *)

(** X10. No [Exception] escapes the handler: whatever the chain, its
    retriever and the agent do, a run of the handler ends normally or with
    an exception that is not an [Exception]. *)
Theorem handle_ask_no_Exception_escapes {C} (api : ChainApi C) (query : string)
    (retrieval_chain : option C) (agent : option (string → result string))
    (show_sources_checkbox : bool) (max_sources : nat) :
  ∀ e, uncaught (handle_ask api query retrieval_chain agent
                            show_sources_checkbox max_sources) ≠ Some (Exc e).
Proof.
  intros e. unfold handle_ask.
  destruct retrieval_chain as [chain|]; [|discriminate].
  case_bool_decide; [discriminate|].
  destruct (outcome_bind _ _) as [[answer docs]|[e'|cls]]; [|discriminate..].
  unfold agent_preview, agent_run. destruct agent; discriminate.
Qed.

(** X11. When the chain answers the dict call with a dict, the handler
    shows, in this order: the answer heading and the answer text ([result],
    else [answer], else [str] of the dict); if an agent is loaded, the
    preview heading and the notice that the preview failed with
    [AttributeError] -- the agent function is never called; then the
    sources of the dict.  The other ways of calling the chain and the
    retriever are not used. *)
Theorem handle_ask_dict_answer {C} (api : ChainApi C) (query : string) (chain : C)
    (f : string → result string) (show_sources_checkbox : bool) (max_sources : nat)
    (d : rag_dict) :
  query ≠ "" →
  chain_call_dict api chain {[ "query" := query ]} = Returns (RagDict d) →
  handle_ask api query (Some chain) (Some f) show_sources_checkbox max_sources
  = {| events :=
         [ StMarkdown "### 🤖 Agent Answer";
           StWrite (default "" (str_or (str_or (rd_result d) (rd_answer d))
                                       (Some (rd_str d))));
           StMarkdown "### 🧰 Agent (tool-run preview)";
           StInfo "Agent tool-run unavailable or failed: 'function' object has no attribute 'run'" ]
         ++ show_sources show_sources_checkbox max_sources
                         (default [] (rd_source_documents d));
       uncaught := None |}.
Proof.
  intros Hquery Hcall. unfold handle_ask, invoke_chain.
  rewrite bool_decide_eq_false_2 by done.
  rewrite Hcall. reflexivity.
Qed.

Lemma handle_ask_dict_answer_witness :
  handle_ask answering_api "Why did lot L1234 show CD drift?" (Some tt)
             (Some (agent_response healthy_world template tt)) false 5
  = {| events :=
         [ StMarkdown "### 🤖 Agent Answer";
           StWrite "The chamber temperature drifted.";
           StMarkdown "### 🧰 Agent (tool-run preview)";
           StInfo "Agent tool-run unavailable or failed: 'function' object has no attribute 'run'";
           StMarkdown "### 📚 Source Documents";
           StMarkdown "**[1] lot1.log**";
           StMarkdown "**[2] source_2**" ];
       uncaught := None |}.
Proof.
  exact (handle_ask_dict_answer answering_api "Why did lot L1234 show CD drift?" tt
           (agent_response healthy_world template tt) false 5
           {| rd_result := Some "The chamber temperature drifted.";
              rd_answer := None;
              rd_source_documents := Some [lot1_document; unlabelled_document];
              rd_str := "{...}" |}
           ltac:(discriminate) eq_refl).
Defined.

(** X12. An [Exception] that is not an instance of [TypeError], raised by
    the dict call, is shown as
    ["Error while running retrieval/agent: <str(e)>"] and nothing else:
    [.run] and the plain call are not tried, no answer and no sources are
    shown. *)
Theorem handle_ask_chain_error {C} (api : ChainApi C) (query : string) (chain : C)
    (agent : option (string → result string)) (show_sources_checkbox : bool)
    (max_sources : nat) (e : exception) :
  query ≠ "" →
  isinstance_TypeError api e = false →
  chain_call_dict api chain {[ "query" := query ]} = Raises (Exc e) →
  handle_ask api query (Some chain) agent show_sources_checkbox max_sources
  = {| events := [StError ("Error while running retrieval/agent: " +:+ exc_str e)];
       uncaught := None |}.
Proof.
  intros Hquery Hclass Hcall. unfold handle_ask, invoke_chain.
  rewrite bool_decide_eq_false_2 by done.
  by rewrite Hcall, Hclass.
Qed.

Lemma handle_ask_chain_error_witness :
  handle_ask refusing_api "What is Virtual Metrology?" (Some tt) None true 5
  = {| events := [StError "Error while running retrieval/agent: Missing some input keys"];
       uncaught := None |}.
Proof.
  exact (handle_ask_chain_error refusing_api "What is Virtual Metrology?" tt None true 5
           (Exception "ValueError" "Missing some input keys")
           ltac:(discriminate) eq_refl eq_refl).
Defined.

(** X13. When the dict call raises an instance of [TypeError] and [.run]
    answers with something that is not a dict, the answer shown is [str] of
    it; then, with an agent loaded, comes the preview heading and the
    notice that the preview failed; and the sources shown are fetched from
    the chain's retriever afterwards and cut to the first [max_sources]. *)
Theorem handle_ask_plain_answer {C} (api : ChainApi C) (query : string) (chain : C)
    (agent : option (string → result string))
    (show_sources_checkbox : bool) (max_sources : nat)
    (e : exception) (text : string) (docs : list document) :
  query ≠ "" →
  isinstance_TypeError api e = true →
  chain_call_dict api chain {[ "query" := query ]} = Raises (Exc e) →
  chain_run api chain query = Returns (RagOther text) →
  retriever_documents api chain query = Returns docs →
  handle_ask api query (Some chain) agent show_sources_checkbox max_sources
  = {| events :=
         [StMarkdown "### 🤖 Agent Answer"; StWrite text]
         ++ match agent with
            | Some _ =>
                [ StMarkdown "### 🧰 Agent (tool-run preview)";
                  StInfo "Agent tool-run unavailable or failed: 'function' object has no attribute 'run'" ]
            | None => []
            end
         ++ show_sources show_sources_checkbox max_sources (take max_sources docs);
       uncaught := None |}.
Proof.
  intros Hquery Hclass Hcall Hrun Hdocs.
  unfold handle_ask, invoke_chain.
  rewrite bool_decide_eq_false_2 by done.
  rewrite Hcall, Hclass, Hrun. simpl. rewrite Hdocs.
  by destruct agent.
Qed.

Lemma handle_ask_plain_answer_witness :
  handle_ask plain_api "status?" (Some tt)
             (Some (agent_response healthy_world template tt)) false 2
  = {| events := [ StMarkdown "### 🤖 Agent Answer"; StWrite "echo: status?";
                   StMarkdown "### 🧰 Agent (tool-run preview)";
                   StInfo "Agent tool-run unavailable or failed: 'function' object has no attribute 'run'";
                   StMarkdown "### 📚 Source Documents";
                   StMarkdown "**[1] lot1.log**";
                   StMarkdown "**[2] source_2**" ];
       uncaught := None |}.
Proof.
  exact (handle_ask_plain_answer plain_api "status?" tt
           (Some (agent_response healthy_world template tt)) false 2
           (Exception "TypeError" "expected str") "echo: status?"
           [lot1_document; unlabelled_document; OtherDoc "third"]
           ltac:(discriminate) eq_refl eq_refl eq_refl eq_refl).
Defined.

(** X14. When the chain's answer, by whichever of the three calls it came,
    is not a dict and fetching documents from its retriever raises an
    [Exception], the answer is still shown, then the agent preview notice
    if an agent is loaded, then the notice that no source documents were
    returned. *)
Theorem handle_ask_retriever_failure {C} (api : ChainApi C) (query : string) (chain : C)
    (agent : option (string → result string))
    (show_sources_checkbox : bool) (max_sources : nat)
    (text : string) (e : exception) :
  query ≠ "" →
  invoke_chain api chain query = Returns (RagOther text) →
  retriever_documents api chain query = Raises (Exc e) →
  handle_ask api query (Some chain) agent show_sources_checkbox max_sources
  = {| events :=
         [StMarkdown "### 🤖 Agent Answer"; StWrite text]
         ++ match agent with
            | Some _ =>
                [ StMarkdown "### 🧰 Agent (tool-run preview)";
                  StInfo "Agent tool-run unavailable or failed: 'function' object has no attribute 'run'" ]
            | None => []
            end
         ++ [StInfo "No source documents returned by the retrieval chain."];
       uncaught := None |}.
Proof.
  intros Hquery Hcall Hdocs. unfold handle_ask.
  rewrite bool_decide_eq_false_2 by done.
  rewrite Hcall. simpl. rewrite Hdocs.
  by destruct agent.
Qed.

Lemma handle_ask_retriever_failure_witness :
  handle_ask no_retriever_api "status?" (Some tt)
             (Some (agent_response healthy_world template tt)) true 5
  = {| events := [ StMarkdown "### 🤖 Agent Answer"; StWrite "plain answer";
                   StMarkdown "### 🧰 Agent (tool-run preview)";
                   StInfo "Agent tool-run unavailable or failed: 'function' object has no attribute 'run'";
                   StInfo "No source documents returned by the retrieval chain." ];
       uncaught := None |}.
Proof.
  exact (handle_ask_retriever_failure no_retriever_api "status?" tt
           (Some (agent_response healthy_world template tt)) true 5
           "plain answer"
           (Exception "AttributeError" "object has no attribute 'retriever'")
           ltac:(discriminate) eq_refl eq_refl).
Defined.

(** X15. Of a dict answer the handler takes [result] if it is a non-empty
    string, else [answer] if that is one, else [str] of the dict; the
    source documents are taken as the dict gives them (none when the key is
    missing), without asking the retriever. *)
Theorem normalize_dict_precedence {C} (api : ChainApi C) (chain : C) (query : string)
    (max_sources : nat) (d : rag_dict) :
  ∃ answer_text,
    normalize api chain query max_sources (RagDict d)
    = Returns (answer_text, default [] (rd_source_documents d))
    ∧ (∀ s, rd_result d = Some s → s ≠ "" → answer_text = s)
    ∧ (∀ s, (rd_result d = None ∨ rd_result d = Some "") →
            rd_answer d = Some s → s ≠ "" → answer_text = s)
    ∧ ((rd_result d = None ∨ rd_result d = Some "") →
       (rd_answer d = None ∨ rd_answer d = Some "") →
       answer_text = rd_str d).
Proof.
  eexists. split; [reflexivity|]. unfold str_or.
  destruct (rd_result d) as [res|], (rd_answer d) as [ans|];
    repeat split; intros; repeat case_bool_decide;
    repeat match goal with
      | H : _ ∨ _ |- _ => destruct H
      end; simplify_eq; done.
Qed.

(** ** Showing the sources *)

Lemma concat_imap_singleton {A B} (g : nat → A → B) (l : list A) :
  concat (imap (λ i x, [g i x]) l) = imap g l.
Proof.
  revert g. induction l as [|x l IH]; intros g; [done|].
  rewrite !imap_cons. simpl. f_equal. apply (IH (g ∘ S)).
Qed.

Lemma concat_imap_length {A B} (f : nat → A → list B) (c : nat) (l : list A) :
  (∀ i x, length (f i x) = c) →
  length (concat (imap f l)) = (c * length l)%nat.
Proof.
  revert f. induction l as [|x l IH]; intros f Hf; simpl; [lia|].
  rewrite length_app, Hf, (IH (f ∘ S)); [lia|]. intros i y. apply Hf.
Qed.

(** X16. Under the heading, at most [max_sources] documents are listed:
    for a non-empty list of sources the handler shows the heading and then
    one label per document among the first [max_sources], each followed by
    its text when the checkbox is ticked. *)
Theorem show_sources_count (show_sources_checkbox : bool) (max_sources : nat)
    (source_docs : list document) :
  source_docs ≠ [] →
  length (show_sources show_sources_checkbox max_sources source_docs)
  = (1 + (if show_sources_checkbox then 2 else 1)
         * Nat.min max_sources (length source_docs))%nat.
Proof.
  intros Hne. unfold show_sources.
  destruct source_docs as [|doc docs]; [done|].
  cbn [length]. f_equal.
  rewrite (concat_imap_length _ (if show_sources_checkbox then 2 else 1)%nat).
  - by rewrite length_take.
  - intros i x. unfold show_source. by destruct show_sources_checkbox.
Qed.

Lemma show_sources_count_witness :
  length (show_sources true 2 [lot1_document; unlabelled_document; OtherDoc "third"])
  = (1 + 2 * Nat.min 2 3)%nat.
Proof.
  exact (show_sources_count true 2
           [lot1_document; unlabelled_document; OtherDoc "third"] ltac:(discriminate)).
Defined.

(** X17. The documents are numbered from 1 in the order the chain gave
    them: with the text hidden, the label of the document at position [i]
    of the first [max_sources] is the event right after the heading and the
    [i] labels before it, and reads ["**[i+1] <label>**"]. *)
Theorem show_sources_numbering (max_sources : nat) (source_docs : list document)
    (i : nat) (doc : document) :
  take max_sources source_docs !! i = Some doc →
  show_sources false max_sources source_docs !! S i
  = Some (StMarkdown ("**[" +:+ pretty (S i) +:+ "] "
                      +:+ scalar_str (source_label (doc_meta doc) (S i)) +:+ "**")).
Proof.
  intros Hi. unfold show_sources.
  destruct source_docs as [|d docs]; [by rewrite take_nil in Hi|].
  set (g := λ (i : nat) (doc : document),
              StMarkdown ("**[" +:+ pretty (S i) +:+ "] "
                          +:+ scalar_str (source_label (doc_meta doc) (S i)) +:+ "**")).
  change ((StMarkdown "### 📚 Source Documents"
           :: concat (imap (λ i x, [g i x]) (take max_sources (d :: docs)))) !! S i
          = Some (g i doc)).
  rewrite concat_imap_singleton.
  change (imap g (take max_sources (d :: docs)) !! i = Some (g i doc)).
  by rewrite list_lookup_imap, Hi.
Qed.

Lemma show_sources_numbering_witness :
  show_sources false 2 [lot1_document; unlabelled_document; OtherDoc "third"] !! 2%nat
  = Some (StMarkdown "**[2] source_2**").
Proof.
  exact (show_sources_numbering 2
           [lot1_document; unlabelled_document; OtherDoc "third"] 1
           unlabelled_document eq_refl).
Defined.

(** ** Labels *)

Lemma truthy_py_or_r (a b : scalar) : truthy b = true → truthy (py_or a b) = true.
Proof. intros Hb. unfold py_or. by destruct (truthy a) eqn:Ha. Qed.

(** X18. A source label is never blank: it is never [None], the empty
    string or 0, whatever the metadata holds. *)
Theorem source_label_never_blank (meta : gmap string scalar) (i : nat) :
  truthy (source_label meta i) = true.
Proof.
  unfold source_label. apply truthy_py_or_r. unfold truthy.
  rewrite bool_decide_eq_false_2; [done|]. cbn [String.append]. discriminate.
Qed.

(** X19. The label is the first of [source], [filename] and [doc_id] that
    is present and not blank, and ["source_<i>"] when none is: a blank
    value (a missing key, [None], the empty string, 0) is passed over. *)
Theorem source_label_precedence (meta : gmap string scalar) (i : nat) :
  (truthy (meta_get meta "source") = true →
   source_label meta i = meta_get meta "source")
  ∧ (truthy (meta_get meta "source") = false →
     truthy (meta_get meta "filename") = true →
     source_label meta i = meta_get meta "filename")
  ∧ (truthy (meta_get meta "source") = false →
     truthy (meta_get meta "filename") = false →
     truthy (meta_get meta "doc_id") = true →
     source_label meta i = meta_get meta "doc_id")
  ∧ (truthy (meta_get meta "source") = false →
     truthy (meta_get meta "filename") = false →
     truthy (meta_get meta "doc_id") = false →
     source_label meta i = SStr ("source_" +:+ pretty i)).
Proof.
  unfold source_label, py_or.
  repeat split; intros;
    repeat match goal with
      | H : truthy _ = _ |- _ => rewrite H
      end; reflexivity.
Qed.

(** ** The text preview *)

Lemma py_len_take (n : nat) (text : string) :
  py_len (py_take n text) = Nat.min n (py_len text).
Proof.
  revert n. induction text as [|c rest IH]; intros n; simpl.
  - by destruct n.
  - destruct (is_continuation c) eqn:Hc; simpl.
    + by rewrite Hc, IH.
    + destruct n as [|n]; simpl; [done|]. by rewrite Hc, IH.
Qed.

Lemma py_take_all (n : nat) (text : string) :
  (py_len text ≤ n)%nat → py_take n text = text.
Proof.
  revert n. induction text as [|c rest IH]; intros n; simpl; [done|].
  destruct (is_continuation c); intros Hlen.
  - by rewrite IH.
  - destruct n as [|n]; [lia|]. rewrite IH; [done|lia].
Qed.

Lemma py_len_append (s t : string) : py_len (s +:+ t) = (py_len s + py_len t)%nat.
Proof.
  induction s as [|c s IH]; [done|].
  change (py_len (String c (s +:+ t)) = (py_len (String c s) + py_len t)%nat).
  simpl. destruct (is_continuation c); by rewrite IH.
Qed.

Lemma append_empty_r (s : string) : s +:+ "" = s.
Proof.
  induction s as [|c s IH]; [done|].
  change (String c (s +:+ "") = String c s). by rewrite IH.
Qed.

(** Characters, not bytes: five characters in thirteen bytes. *)
Example py_len_counts_characters :
  py_len "공정 로그" = 5%nat ∧ String.length "공정 로그" = 13%nat
  ∧ py_take 2 "공정 로그" = "공정".
Proof. repeat split; reflexivity. Qed.

(** X20. The text shown for a document is the text itself when it has at
    most 500 characters, and otherwise its first 500 characters followed by
    ["..."]; it never has more than 503 characters. *)
Theorem preview_bounds (text : string) :
  (py_len (preview text) ≤ 503)%nat
  ∧ ((py_len text ≤ 500)%nat → preview text = text)
  ∧ ((500 < py_len text)%nat →
     preview text = py_take 500 text +:+ "..."
     ∧ py_len (preview text) = 503%nat).
Proof.
  unfold preview.
  destruct (500 <? py_len text)%nat eqn:Hlong.
  - apply Nat.ltb_lt in Hlong.
    assert (py_len (py_take 500 text +:+ "...") = 503%nat) as Hlen.
    { rewrite py_len_append, py_len_take.
      change (py_len "...") with 3%nat. lia. }
    split; [lia|]. split; [lia|done].
  - apply Nat.ltb_ge in Hlong.
    rewrite append_empty_r, py_take_all by done.
    split; [lia|]. split; [done|lia].
Qed.

End AppStreamlitFacts.
